(** * pyEight: derived metrics, session views and presence inference

    A shallow embedding of [pyeight/eight.py] (the snapshot history) and
    [pyeight/user.py] (the per-side accessors, the "current" and "last"
    session views and [dynamic_presence]), with the properties of the
    specification stated over it.

    Python objects that come out of the JSON transport are modelled by
    the type [value]; a Python expression that can raise is a [result].
    JSON numbers are modelled as exact rationals ([Qc]): the rounding of
    Python's binary64 floats is outside the model. *)

From Stdlib Require Import List String Ascii ZArith QArith Qcanon Bool Lia Lqa.
Import ListNotations.

Local Open Scope string_scope.
Local Open Scope Z_scope.

#[local] Set Warnings "-register-all".

(** ** Python values, exceptions and the operations the source uses *)

Module Py.

(** The exception classes the modelled code can meet.  [UserError] is
    an exception class defined outside the builtins, by its name (the
    source imports [NotAuthenticatedError] and [RequestError] from
    [pyeight.exceptions]). *)
Inductive exn : Type :=
| IndexError
| KeyError
| TypeError
| ValueError
| UnboundLocalError
| ZeroDivisionError
| UserError (cls : string).

Inductive result (A : Type) : Type :=
| Ok (a : A)
| Raise (e : exn).
Arguments Ok {A} a.
Arguments Raise {A} e.

Definition ret {A} (a : A) : result A := Ok a.

Definition bind {A B} (r : result A) (k : A -> result B) : result B :=
  match r with
  | Ok a => k a
  | Raise e => Raise e
  end.

Definition exn_eqb (a b : exn) : bool :=
  match a, b with
  | IndexError, IndexError
  | KeyError, KeyError
  | TypeError, TypeError
  | ValueError, ValueError
  | UnboundLocalError, UnboundLocalError
  | ZeroDivisionError, ZeroDivisionError => true
  | UserError x, UserError y => String.eqb x y
  | _, _ => false
  end.

(** [try: body / except cls: handler].  An exception raised by the
    handler itself propagates. *)
Definition try_except {A} (body : result A) (cls : exn) (handler : result A)
  : result A :=
  match body with
  | Ok a => Ok a
  | Raise e => if exn_eqb e cls then handler else Raise e
  end.

(** A local variable that an [if] without [else] may leave unbound:
    reading it then raises [UnboundLocalError]. *)
Definition read_local {A} (x : option A) : result A :=
  match x with
  | Some a => Ok a
  | None => Raise UnboundLocalError
  end.

(** JSON data as Python sees it after parsing.  A dict is an
    association list; lookup takes the first binding of a key. *)
Inductive value : Type :=
| VNone
| VBool (b : bool)
| VNum (q : Qc)
| VStr (s : string)
| VList (l : list value)
| VDict (d : list (string * value)).

Fixpoint lookup (k : string) (d : list (string * value)) : option value :=
  match d with
  | [] => None
  | (k', v) :: d' => if String.eqb k k' then Some v else lookup k d'
  end.

(** [l[i]] on a Python sequence of length [n]: a negative index counts
    from the end, anything outside [-n, n) raises [IndexError]. *)
Definition seq_getitem {A} (l : list A) (i : Z) : result A :=
  let n := Z.of_nat (List.length l) in
  let j := if i <? 0 then i + n else i in
  if (0 <=? j) && (j <? n)
  then match nth_error l (Z.to_nat j) with
       | Some a => Ok a
       | None => Raise IndexError
       end
  else Raise IndexError.

Definition chars (s : string) : list value :=
  map (fun c => VStr (String c EmptyString)) (list_ascii_of_string s).

(** [v[i]] with an integer subscript. *)
Definition getitem_int (v : value) (i : Z) : result value :=
  match v with
  | VList l => seq_getitem l i
  | VStr s => seq_getitem (chars s) i
  | VDict _ => Raise KeyError      (* JSON dicts have string keys only *)
  | _ => Raise TypeError           (* not subscriptable *)
  end.

(** [v[k]] with a string subscript. *)
Definition getitem_str (v : value) (k : string) : result value :=
  match v with
  | VDict d => match lookup k d with
               | Some x => Ok x
               | None => Raise KeyError
               end
  | _ => Raise TypeError           (* indices must be integers, or
                                      the object is not subscriptable *)
  end.

(** Subscript chains such as [self.intervals[0]['incomplete']]. *)
Definition idx (r : result value) (i : Z) : result value :=
  bind r (fun v => getitem_int v i).
Definition key (r : result value) (k : string) : result value :=
  bind r (fun v => getitem_str v k).

(** [len(v)]. *)
Definition len (v : value) : result Z :=
  match v with
  | VList l => Ok (Z.of_nat (List.length l))
  | VStr s => Ok (Z.of_nat (String.length s))
  | VDict d => Ok (Z.of_nat (List.length d))
  | _ => Raise TypeError
  end.

(** The elements a [for x in v] loop visits. *)
Definition iter (v : value) : result (list value) :=
  match v with
  | VList l => Ok l
  | VStr s => Ok (chars s)
  | VDict d => Ok (map (fun kv => VStr (fst kv)) d)
  | _ => Raise TypeError
  end.

(** [v is True], [v is None], [v == 'text'] and truthiness. *)
Definition is_True (v : value) : bool :=
  match v with VBool true => true | _ => false end.

Definition is_None (v : value) : bool :=
  match v with VNone => true | _ => false end.

Definition eq_str (v : value) (s : string) : bool :=
  match v with VStr s' => String.eqb s' s | _ => false end.

Definition truthy (v : value) : bool :=
  match v with
  | VNone => false
  | VBool b => b
  | VNum q => negb (Qeq_bool q 0%Q)
  | VStr s => negb (String.eqb s "")
  | VList l => match l with [] => false | _ => true end
  | VDict d => match d with [] => false | _ => true end
  end.

(** An integer literal or integer result as a number. *)
Definition num (z : Z) : Qc := Q2Qc (inject_Z z).

(** Numbers: [bool] is a subclass of [int]; every other JSON value
    makes an arithmetic operator or an ordering against a number raise
    [TypeError]. *)
Definition as_num (v : value) : option Qc :=
  match v with
  | VNum q => Some q
  | VBool true => Some (num 1)
  | VBool false => Some (num 0)
  | _ => None
  end.

Definition arith (op : Qc -> Qc -> Qc) (a b : value) : result Qc :=
  match as_num a, as_num b with
  | Some x, Some y => Ok (op x y)
  | _, _ => Raise TypeError
  end.

Definition sub := arith Qcminus.
Definition add := arith Qcplus.

Definition Qc_leb (x y : Qc) : bool := Qle_bool x y.
Definition Qc_ltb (x y : Qc) : bool := negb (Qle_bool y x).

(** A [for] loop over [items] that threads the loop state [s] and stops
    at the first exception. *)
Fixpoint for_each {S A} (body : S -> A -> result S) (items : list A) (s : S)
  : result S :=
  match items with
  | [] => Ok s
  | x :: rest => bind (body s x) (for_each body rest)
  end.

(** [v >= n], [v <= n] for a value [v] and a number [n]. *)
Definition ge (v : value) (n : Qc) : result bool :=
  match as_num v with
  | Some x => Ok (Qc_leb n x)
  | None => Raise TypeError
  end.

Definition le (v : value) (n : Qc) : result bool :=
  match as_num v with
  | Some x => Ok (Qc_leb x n)
  | None => Raise TypeError
  end.

(** [x / n] for a number [x] and the integer [n]. *)
Definition truediv (x : Qc) (n : Z) : result Qc :=
  if n =? 0 then Raise ZeroDivisionError
  else Ok (x / num n)%Qc.

End Py.

Export Py.

Notation "x <- e ;; k" := (bind e (fun x => k))
  (at level 61, e at next level, right associativity).

(** ** pyeight/eight.py: the device snapshot history *)

Record EightSleep : Type := {
  _device_json_list : list value
}.

(** [EightSleep.__init__]: the history starts as the empty list. *)
Definition EightSleep_init : EightSleep :=
  {| _device_json_list := [] |}.

(** [EightSleep.device_data]: [self._device_json_list[0]]. *)
Definition device_data (dev : EightSleep) : result value :=
  seq_getitem (_device_json_list dev) 0.

(** [EightSleep.device_data_history]. *)
Definition device_data_history (dev : EightSleep) : list value :=
  _device_json_list dev.

(** [EightSleep.handle_device_json]:
    [self._device_json_list = [data, *self._device_json_list][:10]]. *)
Definition handle_device_json (dev : EightSleep) (data : value) : EightSleep :=
  {| _device_json_list := firstn 10 (data :: _device_json_list dev) |}.

(** Pushing a sequence of snapshots, oldest first. *)
Definition push_all (dev : EightSleep) (snaps : list value) : EightSleep :=
  fold_left handle_device_json snaps dev.

(** ** pyeight/user.py: one occupant of the bed

    [self.device] is a reference to the [EightSleep] object: the
    functions below take the device state [dev] next to the occupant's
    own fields. *)

Record EightUser : Type := {
  userid : value;
  side : string;
  trends : value;
  intervals : value;
  data : value;
  past_heating_level : value;
  presence : bool
}.

(** [EightUser.__init__]; [self.data = device.device_data] reads the
    history at construction time. *)
Definition EightUser_init (dev : EightSleep) (uid : value) (sd : string)
  : result EightUser :=
  d <- device_data dev ;;
  ret {| userid := uid; side := sd; trends := VNone; intervals := VNone;
         data := d; past_heating_level := VNone; presence := false |}.

(** The sides [EightSleep.assign_users] constructs occupants with:
    [for side in ("left", "right")] ... [EightUser(self, user_id, side)]. *)
Definition assign_users_sides : list string := ["left"; "right"].

Definition bed_presence (u : EightUser) : bool := presence u.

Definition set_presence (b : bool) (u : EightUser) : EightUser :=
  {| userid := userid u; side := side u; trends := trends u;
     intervals := intervals u; data := data u;
     past_heating_level := past_heating_level u; presence := b |}.

(** *** Per-side accessors (user.py 71-128)

    In each of them the local is bound only under [self.side == 'Left']
    or [self.side == 'Right'], and [return] sits inside the [try]. *)

Definition target_heating_level (dev : EightSleep) (u : EightUser)
  : result value :=
  try_except
    (level <- (if String.eqb (side u) "Left" then
                 v <- key (device_data dev) "leftTargetHeatingLevel" ;;
                 ret (Some v)
               else if String.eqb (side u) "Right" then
                 v <- key (device_data dev) "rightTargetHeatingLevel" ;;
                 ret (Some v)
               else ret None) ;;
     read_local level)
    TypeError
    (ret VNone).

Definition heating_level (dev : EightSleep) (u : EightUser) : result value :=
  try_except
    (level <- (if String.eqb (side u) "Left" then
                 v <- key (device_data dev) "leftHeatingLevel" ;;
                 ret (Some v)
               else if String.eqb (side u) "Right" then
                 v <- key (device_data dev) "rightHeatingLevel" ;;
                 ret (Some v)
               else ret None) ;;
     read_local level)
    TypeError
    (ret VNone).

Definition now_heating (dev : EightSleep) (u : EightUser) : result value :=
  try_except
    (heat <- (if String.eqb (side u) "Left" then
                v <- key (device_data dev) "leftNowHeating" ;;
                ret (Some v)
              else if String.eqb (side u) "Right" then
                v <- key (device_data dev) "rightNowHeating" ;;
                ret (Some v)
              else ret None) ;;
     read_local heat)
    TypeError
    (ret VNone).

Definition heating_remaining (dev : EightSleep) (u : EightUser)
  : result value :=
  try_except
    (timerem <- (if String.eqb (side u) "Left" then
                   v <- key (device_data dev) "leftHeatingDuration" ;;
                   ret (Some v)
                 else if String.eqb (side u) "Right" then
                   v <- key (device_data dev) "rightHeatingDuration" ;;
                   ret (Some v)
                 else ret None) ;;
     read_local timerem)
    TypeError
    (ret VNone).

Definition heating_values (dev : EightSleep) (u : EightUser) : result value :=
  level <- heating_level dev u ;;
  target <- target_heating_level dev u ;;
  active <- now_heating dev u ;;
  remaining <- heating_remaining dev u ;;
  ret (VDict [("level", level); ("target", target);
              ("active", active); ("remaining", remaining)]).

(** *** Session views (user.py 130-420) *)

(** What a view field evaluates to: JSON data, or the [datetime] of the
    two date fields (microseconds on the naive time line). *)
Inductive pyobj : Type :=
| Json (v : value)
| Datetime (t : Z).

(** [self.intervals[i]]. *)
Definition interval (u : EightUser) (i : Z) : result value :=
  getitem_int (intervals u) i.

(** The stage loop of [current_sleep_breakdown] and
    [last_sleep_breakdown] (user.py 181-188 and 317-324); the loop state
    is the dict [{'awake': a, 'light': l, 'deep': d}]. *)
Definition breakdown_step (b : Qc * Qc * Qc) (stage : value)
  : result (Qc * Qc * Qc) :=
  let '(awake, light, deep) := b in
  k1 <- getitem_str stage "stage" ;;
  if eq_str k1 "awake" then
    d <- getitem_str stage "duration" ;;
    a <- add (VNum awake) d ;; ret (a, light, deep)
  else
    k2 <- getitem_str stage "stage" ;;
    if eq_str k2 "light" then
      d <- getitem_str stage "duration" ;;
      l <- add (VNum light) d ;; ret (awake, l, deep)
    else
      k3 <- getitem_str stage "stage" ;;
      if eq_str k3 "deep" then
        d <- getitem_str stage "duration" ;;
        p <- add (VNum deep) d ;; ret (awake, light, p)
      else ret (awake, light, deep).

Definition breakdown_dict (b : Qc * Qc * Qc) : value :=
  let '(awake, light, deep) := b in
  VDict [("awake", VNum awake); ("light", VNum light); ("deep", VNum deep)].

Definition sleep_breakdown (stages : value) : result value :=
  items <- iter stages ;;
  b <- for_each breakdown_step items (num 0, num 0, num 0) ;;
  ret (breakdown_dict b).

(** [series[len(series)-1][1]]: the value of the most recent sample
    (user.py 201-202, 215-216, 241-242, 255-256). *)
Definition latest_sample (series : value) : result value :=
  n <- len series ;;
  idx (getitem_int series (n - 1)) 1.

(** [tmp = 0; n = len(series); for x in series: tmp += x[1]; tmp/n]
    (user.py 337-341, 354-358, 383-387, 400-404). *)
Definition series_average (series : value) : result value :=
  n <- len series ;;
  items <- iter series ;;
  tmp <- for_each (fun tmp x => v <- getitem_int x 1 ;; add (VNum tmp) v)
                  items (num 0) ;;
  q <- truediv tmp n ;;
  ret (VNum q).

Section Sessions.

(** The two ingredients of the date fields that live outside the
    repository: [datetime.strptime(date, '%Y-%m-%dT%H:%M:%S.%fZ')], and
    the local/UTC offset observed at the time of the call,
    [datetime.fromtimestamp(now) - datetime.utcfromtimestamp(now)]. *)
Variable strptime : value -> result Z.
Variable utc_offset : Z.

(** user.py 137-141 and 288-291. *)
Definition to_local (date : value) : result pyobj :=
  date_f <- strptime date ;;
  ret (Datetime (date_f + utc_offset)).

Definition current_session_date (u : EightUser) : result pyobj :=
  date <- try_except
            (incomplete <- key (interval u 0) "incomplete" ;;
             if is_True incomplete then
               date <- key (interval u 0) "ts" ;;
               d <- to_local date ;; ret (Some d)
             else ret None)
            KeyError
            (ret (Some (Json VNone))) ;;
  read_local date.

Definition current_sleep_stage (u : EightUser) : result value :=
  stage <- try_except
             (incomplete <- key (interval u 0) "incomplete" ;;
              if is_True incomplete then
                stages <- key (interval u 0) "stages" ;;
                num_stages <- len stages ;;
                s <- key (getitem_int stages (num_stages - 1)) "stage" ;;
                ret (Some s)
              else ret None)
             KeyError
             (ret (Some VNone)) ;;
  read_local stage.

Definition current_sleep_score (u : EightUser) : result value :=
  score <- try_except
             (incomplete <- key (interval u 0) "incomplete" ;;
              if is_True incomplete then
                s <- key (interval u 0) "score" ;; ret (Some s)
              else ret None)
             KeyError
             (ret (Some VNone)) ;;
  read_local score.

Definition current_sleep_breakdown (u : EightUser) : result value :=
  breakdown <- try_except
                 (incomplete <- key (interval u 0) "incomplete" ;;
                  if is_True incomplete then
                    stages <- key (interval u 0) "stages" ;;
                    b <- sleep_breakdown stages ;; ret (Some b)
                  else ret None)
                 KeyError
                 (ret (Some VNone)) ;;
  read_local breakdown.

(** [current_bed_temp], [current_room_temp], [current_resp_rate] and
    [current_heart_rate] are one text up to the timeseries key. *)
Definition current_sample (metric : string) (u : EightUser) : result value :=
  x <- try_except
         (incomplete <- key (interval u 0) "incomplete" ;;
          if is_True incomplete then
            series <- key (key (interval u 0) "timeseries") metric ;;
            v <- latest_sample series ;; ret (Some v)
          else ret None)
         KeyError
         (ret (Some VNone)) ;;
  read_local x.

Definition current_bed_temp := current_sample "tempBedC".
Definition current_room_temp := current_sample "tempRoomC".
Definition current_resp_rate := current_sample "respiratoryRate".
Definition current_heart_rate := current_sample "heartRate".

Definition current_tnt (u : EightUser) : result value :=
  tnt <- try_except
           (incomplete <- key (interval u 0) "incomplete" ;;
            if is_True incomplete then
              series <- key (key (interval u 0) "timeseries") "tnt" ;;
              n <- len series ;; ret (Some (VNum (num n)))
            else ret None)
           KeyError
           (ret (Some VNone)) ;;
  read_local tnt.

Definition current_values (u : EightUser) : result (list (string * pyobj)) :=
  date <- current_session_date u ;;
  score <- current_sleep_score u ;;
  stage <- current_sleep_stage u ;;
  breakdown <- current_sleep_breakdown u ;;
  tnt <- current_tnt u ;;
  bed_temp <- current_bed_temp u ;;
  room_temp <- current_room_temp u ;;
  resp_rate <- current_resp_rate u ;;
  heart_rate <- current_heart_rate u ;;
  ret [("date", date); ("score", Json score); ("stage", Json stage);
       ("breakdown", Json breakdown); ("tnt", Json tnt);
       ("bed_temp", Json bed_temp); ("room_temp", Json room_temp);
       ("resp_rate", Json resp_rate); ("heart_rate", Json heart_rate)].

Definition last_session_date (u : EightUser) : result pyobj :=
  date <- try_except
            (incomplete <- key (interval u 0) "incomplete" ;;
             if is_True incomplete then
               d <- key (interval u 1) "ts" ;; ret (Some d)
             else ret None)
            KeyError
            (d <- key (interval u 0) "ts" ;; ret (Some d)) ;;
  d <- read_local date ;;
  to_local d.

Definition last_sleep_score (u : EightUser) : result value :=
  score <- try_except
             (incomplete <- key (interval u 0) "incomplete" ;;
              if is_True incomplete then
                s <- key (interval u 1) "score" ;; ret (Some s)
              else ret None)
             KeyError
             (s <- key (interval u 0) "score" ;; ret (Some s)) ;;
  read_local score.

Definition last_sleep_breakdown (u : EightUser) : result value :=
  stages <- try_except
              (incomplete <- key (interval u 0) "incomplete" ;;
               if is_True incomplete then
                 s <- key (interval u 1) "stages" ;; ret (Some s)
               else ret None)
              KeyError
              (s <- key (interval u 0) "stages" ;; ret (Some s)) ;;
  st <- read_local stages ;;
  sleep_breakdown st.

(** [last_bed_temp], [last_room_temp], [last_resp_rate] and
    [last_heart_rate] are one text up to the timeseries key. *)
Definition last_average (metric : string) (u : EightUser) : result value :=
  series <- try_except
              (incomplete <- key (interval u 0) "incomplete" ;;
               if is_True incomplete then
                 s <- key (key (interval u 1) "timeseries") metric ;;
                 ret (Some s)
               else ret None)
              KeyError
              (s <- key (key (interval u 0) "timeseries") metric ;;
               ret (Some s)) ;;
  s <- read_local series ;;
  series_average s.

Definition last_bed_temp := last_average "tempBedC".
Definition last_room_temp := last_average "tempRoomC".
Definition last_resp_rate := last_average "respiratoryRate".
Definition last_heart_rate := last_average "heartRate".

Definition last_tnt (u : EightUser) : result value :=
  tnt <- try_except
           (incomplete <- key (interval u 0) "incomplete" ;;
            if is_True incomplete then
              series <- key (key (interval u 1) "timeseries") "tnt" ;;
              n <- len series ;; ret (Some (VNum (num n)))
            else ret None)
           KeyError
           (series <- key (key (interval u 0) "timeseries") "tnt" ;;
            n <- len series ;; ret (Some (VNum (num n)))) ;;
  read_local tnt.

Definition last_values (u : EightUser) : result (list (string * pyobj)) :=
  date <- last_session_date u ;;
  score <- last_sleep_score u ;;
  breakdown <- last_sleep_breakdown u ;;
  tnt <- last_tnt u ;;
  bed_temp <- last_bed_temp u ;;
  room_temp <- last_room_temp u ;;
  resp_rate <- last_resp_rate u ;;
  heart_rate <- last_heart_rate u ;;
  ret [("date", date); ("score", Json score); ("breakdown", Json breakdown);
       ("tnt", Json tnt); ("bed_temp", Json bed_temp);
       ("room_temp", Json room_temp); ("resp_rate", Json resp_rate);
       ("heart_rate", Json heart_rate)].

End Sessions.

(** All nine fields of the "current" view at once: the eight JSON-valued
    ones evaluate to [r], the date to [d]. *)
Definition current_fields_are (strptime : value -> result Z) (utc_offset : Z)
  (u : EightUser) (r : result value) (d : result pyobj) : Prop :=
  current_session_date strptime utc_offset u = d
  /\ current_sleep_score u = r
  /\ current_sleep_stage u = r
  /\ current_sleep_breakdown u = r
  /\ current_tnt u = r
  /\ current_bed_temp u = r
  /\ current_room_temp u = r
  /\ current_resp_rate u = r
  /\ current_heart_rate u = r.

(** All eight fields of the "last" view raise [e]. *)
Definition last_fields_raise (strptime : value -> result Z) (utc_offset : Z)
  (u : EightUser) (e : exn) : Prop :=
  last_session_date strptime utc_offset u = Raise e
  /\ last_sleep_score u = Raise e
  /\ last_sleep_breakdown u = Raise e
  /\ last_tnt u = Raise e
  /\ last_bed_temp u = Raise e
  /\ last_room_temp u = Raise e
  /\ last_resp_rate u = Raise e
  /\ last_heart_rate u = Raise e.

(** *** Presence inference (user.py 422-444)

    [dynamic_presence] is the one method that assigns to the occupant
    ([self.presence]); an exception leaves the assignments made so far
    in place.  A step therefore yields its outcome together with the
    occupant it leaves behind. *)

Definition M (A : Type) : Type := EightUser -> result A * EightUser.

Definition mret {A} (a : A) : M A := fun u => (Ok a, u).

Definition mbind {A B} (m : M A) (k : A -> M B) : M B :=
  fun u => match m u with
           | (Ok a, u') => k a u'
           | (Raise e, u') => (Raise e, u')
           end.

(** Reading a property of [self]. *)
Definition prop {A} (f : EightUser -> result A) : M A := fun u => (f u, u).

(** An expression over values already read. *)
Definition expr {A} (r : result A) : M A := fun u => (r, u).

(** [self.presence = b]. *)
Definition assign_presence (b : bool) : M unit :=
  fun u => (Ok tt, set_presence b u).

Notation "x <~ e ;; k" := (mbind e (fun x => k))
  (at level 61, e at next level, right associativity).

(** user.py 428-433. *)
Definition heat_delta (dev : EightSleep) : M Qc :=
  nh <~ prop (now_heating dev) ;;
  if truthy nh then
    hl <~ prop (heating_level dev) ;;
    tl <~ prop (target_heating_level dev) ;;
    expr (sub hl tl)
  else
    hl <~ prop (heating_level dev) ;;
    if negb (is_None hl) then
      hl' <~ prop (heating_level dev) ;;
      expr (sub hl' (VNum (num 10)))
    else mret (num 0).

Definition dynamic_presence (dev : EightSleep) : M unit :=
  delta <~ heat_delta dev ;;
  (* if heat_delta >= 8 and self.heating_level >= 25 *)
  present <~ (if Qc_leb (num 8) delta then
                hl <~ prop (heating_level dev) ;; expr (ge hl (num 25))
              else mret false) ;;
  _ <~ (if present then assign_presence true else mret tt) ;;
  (* if not self.now_heating and self.heating_level <= 15 *)
  cold <~ (nh <~ prop (now_heating dev) ;;
           if negb (truthy nh) then
             hl <~ prop (heating_level dev) ;; expr (le hl (num 15))
           else mret false) ;;
  if cold then assign_presence false
  else
    (* elif self.now_heating and heat_delta < 8 *)
    stalled <~ (nh <~ prop (now_heating dev) ;;
                if truthy nh then mret (Qc_ltb delta (num 8))
                else mret false) ;;
    if stalled then assign_presence false else mret tt.

(** Successive polling cycles of one occupant: [update_device_data]
    stores a snapshot and calls [dynamic_presence]; [devs] lists the
    device states the cycles run against, in order.  An exception ends
    the run. *)
Fixpoint poll_ticks (devs : list EightSleep) : M unit :=
  match devs with
  | [] => mret tt
  | dev :: rest => _ <~ dynamic_presence dev ;; poll_ticks rest
  end.

(** The three heating fields read the same for [u] against [dev'] as
    against [dev]. *)
Definition same_heating_fields (dev : EightSleep) (u : EightUser)
  (dev' : EightSleep) : Prop :=
  now_heating dev' u = now_heating dev u
  /\ heating_level dev' u = heating_level dev u
  /\ target_heating_level dev' u = target_heating_level dev u.

(** *** The session the "last" view reads

    As the code selects it: the second entry when the first carries
    [incomplete: true], the first entry when it carries no [incomplete]
    key (the [except KeyError] branch). *)
Inductive last_session (u : EightUser) : value -> Prop :=
| last_is_second (i0 i1 : value) (rest : list value) :
    intervals u = VList (i0 :: i1 :: rest) ->
    getitem_str i0 "incomplete" = Ok (VBool true) ->
    last_session u i1
| last_is_first (i0 : value) (rest : list value) :
    intervals u = VList (i0 :: rest) ->
    getitem_str i0 "incomplete" = Raise KeyError ->
    last_session u i0.

(** *** The arithmetic mean in the specification's words (section 4.4) *)




(** *** The transition rule in the specification's words (section 4.5)

    Stated over known numbers; compared with [dynamic_presence] below. *)


Definition present_condition (delta level : Qc) : Prop :=
  (num 8 <= delta)%Qc /\ (num 25 <= level)%Qc.

Definition absent_condition (active : bool) (delta level : Qc) : Prop :=
  (active = false /\ (level <= num 15)%Qc)
  \/ (active = true /\ (delta < num 8)%Qc).

(** ** The rest of pyeight/user.py *)

Definition set_intervals (ivs : value) (u : EightUser) : EightUser :=
  {| userid := userid u; side := side u; trends := trends u;
     intervals := ivs; data := data u;
     past_heating_level := past_heating_level u; presence := presence u |}.

Definition set_trends (days : value) (u : EightUser) : EightUser :=
  {| userid := userid u; side := side u; trends := days;
     intervals := intervals u; data := data u;
     past_heating_level := past_heating_level u; presence := presence u |}.

Definition set_past_heating_level (level : value) (u : EightUser) : EightUser :=
  {| userid := userid u; side := side u; trends := trends u;
     intervals := intervals u; data := data u;
     past_heating_level := level; presence := presence u |}.

(** [EightUser.update_intervals_data] (user.py 504-514), given what
    [self.device.api_get(url)] returned: [None] after a failed fetch
    (an error is logged), else the parsed response. *)
Definition update_intervals_data (response : value) : M unit :=
  if is_None response then mret tt
  else
    ivs <~ expr (getitem_str response "intervals") ;;
    fun u => (Ok tt, set_intervals ivs u).

(** [EightUser.update_trend_data] (user.py 487-502), likewise. *)
Definition update_trend_data (response : value) : M unit :=
  if is_None response then mret tt
  else
    days <~ expr (getitem_str response "days") ;;
    fun u => (Ok tt, set_trends days u).

(** [EightUser.update_user] (user.py 449-459):
    [self.past_heating_level = self.heating_level], then the intervals. *)
Definition update_user (dev : EightSleep) (response : value) : M unit :=
  level <~ prop (heating_level dev) ;;
  _ <~ (fun u => (Ok tt, set_past_heating_level level u)) ;;
  update_intervals_data response.




(** ** The rest of pyeight/eight.py *)

(** [self.users]: a dict in insertion order, from user id to occupant.
    The ids are JSON scalars; a list or a dict as a key is unhashable. *)
Definition users_t : Type := list (value * EightUser).

Definition hashable (v : value) : bool :=
  match v with
  | VList _ | VDict _ => false
  | _ => true
  end.

(** Equality of dict keys: strings by text, numbers and booleans by
    numeric value ([True == 1]), [None] with itself. *)
Definition key_eqb (a b : value) : bool :=
  match a, b with
  | VStr x, VStr y => String.eqb x y
  | VNone, VNone => true
  | _, _ => match as_num a, as_num b with
            | Some x, Some y => Qc_eq_bool x y
            | _, _ => false
            end
  end.

(** [k in self.users]. *)
Definition users_contains (users : users_t) (k : value) : result bool :=
  if hashable k then Ok (existsb (fun kv => key_eqb (fst kv) k) users)
  else Raise TypeError.


(** [d.get(k)]; on anything but a dict the attribute lookup fails with
    the built-in [AttributeError], carried here by its name. *)
Definition dict_get (v : value) (k : string) : result value :=
  match v with
  | VDict d => Ok (match lookup k d with Some x => x | None => VNone end)
  | _ => Raise (UserError "AttributeError")
  end.

(** [data["result"].get(f"{side}UserId")] (eight.py 173). *)
Definition side_user_id (response : value) (sd : string) : result value :=
  r <- getitem_str response "result" ;; dict_get r (sd ++ "UserId")%string.

Section AssignUsers.

(** [EightUser.update_user_profile], awaited by [assign_users]; user.py
    does not define it. *)
Variable update_user_profile : M unit.

(** One round of the loop of [assign_users] (eight.py 172-176). *)
Definition assign_side (dev : EightSleep) (response : value) (users : users_t)
  (sd : string) : result unit * users_t :=
  match (user_id <- side_user_id response sd ;;
         if negb (is_None user_id) then
           known <- users_contains users user_id ;;
           ret (user_id, negb known)
         else ret (user_id, false))
  with
  | Raise e => (Raise e, users)
  | Ok (_, false) => (Ok tt, users)
  | Ok (user_id, true) =>
      match EightUser_init dev user_id sd with
      | Raise e => (Raise e, users)
      | Ok user =>
          let (r, user') := update_user_profile user in
          (r, (users ++ [(user_id, user')])%list)
      end
  end.

Fixpoint assign_sides (dev : EightSleep) (response : value) (sides : list string)
  (users : users_t) : result unit * users_t :=
  match sides with
  | [] => (Ok tt, users)
  | sd :: rest =>
      match assign_side dev response users sd with
      | (Ok _, users') => assign_sides dev response rest users'
      | (Raise e, users') => (Raise e, users')
      end
  end.

(** [EightSleep.assign_users] (eight.py 165-176), given the device ids
    already fetched and the response of its [api_request]. *)
Definition assign_users (dev : EightSleep) (device_ids : list value)
  (response : value) (users : users_t) : result unit * users_t :=
  match seq_getitem device_ids 0 with
  | Raise e => (Raise e, users)
  | Ok _ => assign_sides dev response assign_users_sides users
  end.

End AssignUsers.

(** [for obj in self.users.values(): obj.dynamic_presence()]: the first
    exception ends the loop and leaves the later occupants untouched. *)
Fixpoint presence_all (dev : EightSleep) (users : users_t)
  : result unit * users_t :=
  match users with
  | [] => (Ok tt, [])
  | (k, u) :: rest =>
      match dynamic_presence dev u with
      | (Ok _, u') =>
          let (r, rest') := presence_all dev rest in (r, (k, u') :: rest')
      | (Raise e, u') => (Raise e, (k, u') :: rest)
      end
  end.

(** [EightSleep.update_device_data] (eight.py 218-222) from the response
    of its [api_request] on: store the snapshot, then re-evaluate the
    presence of every occupant. *)
Definition update_device_data (dev : EightSleep) (users : users_t)
  (device_resp : value) : result unit * (EightSleep * users_t) :=
  match getitem_str device_resp "result" with
  | Raise e => (Raise e, (dev, users))
  | Ok snapshot =>
      let dev' := handle_device_json dev snapshot in
      let (r, users') := presence_all dev' users in
      (r, (dev', users'))
  end.

(** [EightSleep.update_user_data] (eight.py 109-112); [api_get] gives
    the intervals response for a user id. *)
Fixpoint update_user_data (dev : EightSleep) (api_get : value -> value)
  (users : users_t) : result unit * users_t :=
  match users with
  | [] => (Ok tt, [])
  | (k, u) :: rest =>
      match update_user dev (api_get (userid u)) u with
      | (Ok _, u') =>
          let (r, rest') := update_user_data dev api_get rest in
          (r, (k, u') :: rest')
      | (Raise e, u') => (Raise e, (k, u') :: rest)
      end
  end.

Section RoomTemperature.

Variable strptime : value -> result Z.
Variable utc_offset : Z.

(** [user.current_values[k]]. *)
Definition current_value (u : EightUser) (k : string) : result pyobj :=
  cv <- current_values strptime utc_offset u ;;
  match find (fun kv => String.eqb (fst kv) k) cv with
  | Some kv => Ok (snd kv)
  | None => Raise KeyError
  end.

Definition obj_truthy (o : pyobj) : bool :=
  match o with Json v => truthy v | Datetime _ => true end.

Definition obj_is_None (o : pyobj) : bool :=
  match o with Json v => is_None v | Datetime _ => false end.

(** [(a + b) / 2]. *)
Definition obj_midpoint (a b : pyobj) : result pyobj :=
  match a, b with
  | Json x, Json y => s <- add x y ;; q <- truediv s 2 ;; ret (Json (VNum q))
  | _, _ => Raise TypeError
  end.

(** The loop body of [room_temperature] (eight.py 185-194) over the
    pair [(tmp, tmp2)]. *)
Definition room_temperature_step (acc : pyobj * pyobj) (kv : value * EightUser)
  : result (pyobj * pyobj) :=
  let '(tmp, tmp2) := acc in
  let user := snd kv in
  processing <- current_value user "processing" ;;
  if obj_truthy processing then
    if obj_is_None tmp then
      t <- current_value user "room_temp" ;; ret (t, tmp2)
    else
      t <- current_value user "room_temp" ;;
      m <- obj_midpoint tmp t ;; ret (m, tmp2)
  else
    if obj_is_None tmp2 then
      t <- current_value user "room_temp" ;; ret (tmp, t)
    else
      t <- current_value user "room_temp" ;;
      m <- obj_midpoint tmp2 t ;; ret (tmp, m).

(** [EightSleep.room_temperature] (eight.py 178-200). *)
Definition room_temperature (users : users_t) : result pyobj :=
  acc <- for_each room_temperature_step users (Json VNone, Json VNone) ;;
  let '(tmp, tmp2) := acc in
  if negb (obj_is_None tmp) then ret tmp else ret tmp2.

End RoomTemperature.

(** ** Sample data *)

(** An occupant on side [sd] with the intervals list [ivs], as
    [update_intervals_data] stores it. *)
Definition occupant (sd : string) (ivs : value) : EightUser :=
  {| userid := VStr "user-1"; side := sd; trends := VNone; intervals := ivs;
     data := VNone; past_heating_level := VNone; presence := false |}.

(** A device snapshot carrying the four left-side heating fields. *)
Definition left_snapshot (level target active : value) : value :=
  VDict [("leftHeatingLevel", level); ("leftTargetHeatingLevel", target);
         ("leftNowHeating", active); ("leftHeatingDuration", VNum (num 0))].

Definition device_with (snapshot : value) : EightSleep :=
  {| _device_json_list := [snapshot] |}.

(** A device that holds one snapshot with the left side at level 30,
    target 10, not heating; and the occupant [assign_users] constructs
    against it for the left side. *)
Definition warm_snapshot : value :=
  left_snapshot (VNum (num 30)) (VNum (num 10)) (VBool false).

Definition warm_device : EightSleep := device_with warm_snapshot.

Definition constructed_left : EightUser :=
  {| userid := VStr "user-1"; side := "left"; trends := VNone;
     intervals := VNone; data := warm_snapshot; past_heating_level := VNone;
     presence := false |}.

(** The left side heating towards target 10 at level 30. *)
Definition heating_device : EightSleep :=
  device_with (left_snapshot (VNum (num 30)) (VNum (num 10)) (VBool true)).

(** The next poll of [heating_device]: a new snapshot on top, with the
    same three heating fields and less heating time left. *)
Definition later_heating_device : EightSleep :=
  handle_device_json heating_device
    (VDict [("leftHeatingLevel", VNum (num 30));
            ("leftTargetHeatingLevel", VNum (num 10));
            ("leftNowHeating", VBool true);
            ("leftHeatingDuration", VNum (num 3540))]).

(** A snapshot whose left heating level is JSON null. *)
Definition unknown_level_device : EightSleep :=
  device_with (left_snapshot VNone (VNum (num 10)) (VBool false)).

Definition left_occupant : EightUser := occupant "Left" VNone.

(** A stand-in for [strptime] that accepts any text, for evaluating the
    date fields on sample data. *)
Definition sample_strptime (date : value) : result Z :=
  match date with
  | VStr _ => Ok 1488349800000000
  | _ => Raise TypeError
  end.

(** A timeseries sample [[timestamp, value]]. *)
Definition sample (p : value * Qc) : value := VList [fst p; VNum (snd p)].

(** A session record. *)
Definition session (incomplete : option bool) (score : Z) (stages : list value)
  (series : list (string * value)) : value :=
  VDict (match incomplete with
         | Some b => [("incomplete", VBool b)]
         | None => []
         end
         ++ [("ts", VStr "2017-03-01T06:30:00.000Z"); ("score", VNum (num score));
             ("stages", VList stages); ("timeseries", VDict series)]).

Definition stage_entry (kind : string) (duration : Z) : value :=
  VDict [("stage", VStr kind); ("duration", VNum (num duration))].

Definition night_series : list (string * value) :=
  [("tempBedC", VList [sample (VStr "t1", num 20); sample (VStr "t2", num 22)]);
   ("tempRoomC", VList [sample (VStr "t1", num 18); sample (VStr "t2", num 20)]);
   ("respiratoryRate", VList [sample (VStr "t1", num 14); sample (VStr "t2", num 16)]);
   ("heartRate", VList [sample (VStr "t1", num 58); sample (VStr "t2", num 62)]);
   ("tnt", VList [sample (VStr "t1", num 1)])].

Definition night_stages : list value :=
  [stage_entry "awake" 600; stage_entry "light" 7200; stage_entry "deep" 3600].

Definition completed_night : value := session None 82 night_stages night_series.
Definition running_night : value := session (Some true) 40 night_stages night_series.
Definition flagged_complete_night : value :=
  session (Some false) 82 night_stages night_series.

(** Occupants with a running and a completed session, with a single
    running session, and with no session. *)
Definition two_nights : EightUser :=
  occupant "Left" (VList [running_night; completed_night]).
Definition first_night_running : EightUser :=
  occupant "Left" (VList [running_night]).
Definition no_nights : EightUser := occupant "Left" (VList []).


(** Ten polls of a device, oldest first, and the device after them. *)
Definition poll_snapshot (n : Z) : value :=
  left_snapshot (VNum (num (20 + n))) (VNum (num 10)) (VBool true).

Definition ten_polls : list value :=
  map poll_snapshot [1; 2; 3; 4; 5; 6; 7; 8; 9; 10].

Definition full_device : EightSleep := push_all EightSleep_init ten_polls.

(** The occupant of the right side, and a snapshot that is not a dict. *)
Definition right_occupant : EightUser := occupant "Right" VNone.

Definition null_snapshot_device : EightSleep := device_with VNone.

(** A stage list from (kind, seconds) pairs, and the seconds spent in
    one kind of stage. *)
Definition stage_list (entries : list (string * Z)) : value :=
  VList (map (fun e => stage_entry (fst e) (snd e)) entries).

Definition kind_total (kind : string) (entries : list (string * Z)) : Z :=
  fold_right (fun e acc => if String.eqb (fst e) kind then snd e + acc else acc)
             0 entries.

Definition breakdown_of (entries : list (string * Z)) : value :=
  VDict [("awake", VNum (num (kind_total "awake" entries)));
         ("light", VNum (num (kind_total "light" entries)));
         ("deep", VNum (num (kind_total "deep" entries)))].

(** A running session that carries nothing but its flag, and one that
    has just started: no stage and no sample yet. *)
Definition bare_running_night : value := VDict [("incomplete", VBool true)].

Definition fresh_running_night : value :=
  session (Some true) 0 []
    [("tempBedC", VList []); ("tempRoomC", VList []);
     ("respiratoryRate", VList []); ("heartRate", VList []); ("tnt", VList [])].

Definition bare_night_running : EightUser :=
  occupant "Left" (VList [bare_running_night]).

Definition fresh_night_running : EightUser :=
  occupant "Left" (VList [fresh_running_night]).

(** A response of the device endpoint that names both occupants, the
    device ids of an account with one device, and a profile update that
    does nothing. *)
Definition users_response : value :=
  VDict [("result", VDict [("ownerId", VStr "alice");
                           ("leftUserId", VStr "alice");
                           ("rightUserId", VStr "bob")])].

Definition one_device : list value := [VStr "device-1"].

Definition no_profile : M unit := mret tt.

(** The occupants [assign_users] builds from [users_response] against
    [warm_device]. *)
Definition constructed_pair : users_t :=
  [(VStr "alice",
    {| userid := VStr "alice"; side := "left"; trends := VNone;
       intervals := VNone; data := warm_snapshot;
       past_heating_level := VNone; presence := false |});
   (VStr "bob",
    {| userid := VStr "bob"; side := "right"; trends := VNone;
       intervals := VNone; data := warm_snapshot;
       past_heating_level := VNone; presence := false |})].

(** An entry of [self.users] after a poll, against the entry before it:
    the same id, and the same occupant up to [presence]. *)
Definition presence_changed_only (old new : value * EightUser) : Prop :=
  fst new = fst old
  /\ (snd new = snd old
      \/ snd new = set_presence true (snd old)
      \/ snd new = set_presence false (snd old)).

(** The registered occupant of [constructed_pair] on the left, once its
    intervals have been stored; and device responses. *)
Definition poll_response : value :=
  VDict [("result", poll_snapshot 11)].

Definition intervals_response : value :=
  VDict [("intervals", VList [running_night; completed_night])].



(** * Properties *)

(** ** Snapshot history *)

Lemma firstn_push (n : nat) (x : value) (l : list value) :
  firstn (S n) (x :: firstn (S n) l) = firstn (S n) (x :: l).
Proof.
  rewrite (firstn_cons n x (firstn (S n) l)), (firstn_cons n x l).
  rewrite firstn_firstn. do 2 f_equal. lia.
Qed.

Lemma push_all_app (dev : EightSleep) (xs ys : list value) :
  push_all dev (xs ++ ys) = push_all (push_all dev xs) ys.
Proof. unfold push_all. apply fold_left_app. Qed.

Lemma push_all_history (dev : EightSleep) (x : value) (snaps : list value) :
  _device_json_list (push_all dev (x :: snaps))
  = firstn 10 (rev (x :: snaps) ++ _device_json_list dev).
Proof.
  induction snaps as [| y snaps IH] using rev_ind.
  - reflexivity.
  - rewrite app_comm_cons, push_all_app.
    change (push_all (push_all dev (x :: snaps)) [y])
      with (handle_device_json (push_all dev (x :: snaps)) y).
    unfold handle_device_json at 1. cbn [_device_json_list].
    rewrite IH, firstn_push.
    rewrite (rev_app_distr (x :: snaps) [y]). reflexivity.
Qed.

Lemma push_all_from_init (snaps : list value) :
  _device_json_list (push_all EightSleep_init snaps) = firstn 10 (rev snaps).
Proof.
  destruct snaps as [| x snaps].
  - reflexivity.
  - rewrite push_all_history. cbn [EightSleep_init _device_json_list].
    now rewrite app_nil_r.
Qed.

(** C6.  [handle_device_json] prepends the snapshot and keeps the first
    ten elements; whatever is pushed, the history is the newest-first
    sequence of the pushed snapshots cut to length ten, so it never
    holds more than ten; eleven pushes into the empty history leave the
    ten most recent, newest first. *)
Theorem history_push_bounded_newest_first :
  (forall dev data,
      _device_json_list (handle_device_json dev data)
      = firstn 10 (data :: _device_json_list dev))
  /\ (forall dev data,
         (List.length (_device_json_list (handle_device_json dev data)) <= 10)%nat)
  /\ (forall dev x snaps,
         _device_json_list (push_all dev (x :: snaps))
         = firstn 10 (rev (x :: snaps) ++ _device_json_list dev))
  /\ (forall snaps,
         _device_json_list (push_all EightSleep_init snaps) = firstn 10 (rev snaps)
         /\ (List.length (_device_json_list (push_all EightSleep_init snaps)) <= 10)%nat)
  /\ (forall s1 s2 s3 s4 s5 s6 s7 s8 s9 s10 s11,
         _device_json_list
           (push_all EightSleep_init [s1; s2; s3; s4; s5; s6; s7; s8; s9; s10; s11])
         = [s11; s10; s9; s8; s7; s6; s5; s4; s3; s2]).
Proof.
  split; [| split; [| split; [| split]]].
  - reflexivity.
  - intros dev data. apply firstn_le_length.
  - apply push_all_history.
  - intros snaps. split.
    + apply push_all_from_init.
    + rewrite push_all_from_init. apply firstn_le_length.
  - reflexivity.
Qed.

(** C8, as the code has it.  [device_data] returns element 0 of a
    non-empty history and raises the built-in [IndexError] on the empty
    one. *)
Theorem device_data_latest_or_IndexError (dev : EightSleep) :
  match _device_json_list dev with
  | newest :: _ => device_data dev = Ok newest
  | [] => device_data dev = Raise IndexError
  end.
Proof.
  unfold device_data, seq_getitem.
  destruct (_device_json_list dev) as [| newest older]; [reflexivity |].
  cbn [List.length]. 
  replace (if 0 <? 0 then 0 + Z.of_nat (S (List.length older)) else 0) with 0 by reflexivity.
  replace ((0 <=? 0) && (0 <? Z.of_nat (S (List.length older)))) with true.
  - reflexivity.
  - symmetry. apply andb_true_intro. split; [reflexivity | apply Z.ltb_lt; lia].
Qed.

(** C8, counterexample.  On the empty history the failure is
    [IndexError], not an exception class called [NoDataError]. *)
Lemma device_data_empty_not_NoDataError :
  device_data EightSleep_init = Raise IndexError
  /\ device_data EightSleep_init <> Raise (UserError "NoDataError").
Proof. split; [reflexivity | discriminate]. Qed.

(** ** Per-side accessors *)

Lemma assign_users_sides_not_capitalised (sd : string) :
  In sd assign_users_sides ->
  String.eqb sd "Left" = false /\ String.eqb sd "Right" = false.
Proof. intros [<- | [<- | []]]; split; reflexivity. Qed.

Lemma EightUser_init_side (dev : EightSleep) (uid : value) (sd : string)
  (u : EightUser) :
  EightUser_init dev uid sd = Ok u -> side u = sd.
Proof.
  unfold EightUser_init. destruct (device_data dev); cbn; [| discriminate].
  intros [= <-]. reflexivity.
Qed.

(** With a side that is neither ['Left'] nor ['Right'] no branch binds
    the local, whatever the history holds. *)
Lemma accessors_unbound_off_side (dev : EightSleep) (u : EightUser) :
  String.eqb (side u) "Left" = false ->
  String.eqb (side u) "Right" = false ->
  heating_level dev u = Raise UnboundLocalError
  /\ target_heating_level dev u = Raise UnboundLocalError
  /\ now_heating dev u = Raise UnboundLocalError
  /\ heating_remaining dev u = Raise UnboundLocalError.
Proof.
  intros HL HR.
  unfold heating_level, target_heating_level, now_heating, heating_remaining.
  rewrite HL, HR. repeat split; reflexivity.
Qed.

(** C10.  An occupant constructed with one of the sides [assign_users]
    passes ("left", "right") meets neither ['Left'] nor ['Right']: with
    a non-empty history each of the four per-side accessors raises
    [UnboundLocalError], which [except TypeError] does not catch. *)
Theorem assign_users_occupant_accessors_unbound
  (dev0 dev : EightSleep) (uid : value) (sd : string) (u : EightUser) :
  In sd assign_users_sides ->
  EightUser_init dev0 uid sd = Ok u ->
  _device_json_list dev <> [] ->
  heating_level dev u = Raise UnboundLocalError
  /\ target_heating_level dev u = Raise UnboundLocalError
  /\ now_heating dev u = Raise UnboundLocalError
  /\ heating_remaining dev u = Raise UnboundLocalError.
Proof.
  intros Hsd Hinit _.
  apply EightUser_init_side in Hinit. subst sd.
  destruct (assign_users_sides_not_capitalised _ Hsd) as [HL HR].
  now apply accessors_unbound_off_side.
Qed.

Lemma assign_users_occupant_accessors_unbound_witness :
  In "left" assign_users_sides
  /\ EightUser_init warm_device (VStr "user-1") "left" = Ok constructed_left
  /\ _device_json_list warm_device <> []
  /\ heating_level warm_device constructed_left = Raise UnboundLocalError
  /\ target_heating_level warm_device constructed_left = Raise UnboundLocalError
  /\ now_heating warm_device constructed_left = Raise UnboundLocalError
  /\ heating_remaining warm_device constructed_left = Raise UnboundLocalError.
Proof.
  assert (H1 : In "left" assign_users_sides) by (simpl; auto).
  assert (H2 : EightUser_init warm_device (VStr "user-1") "left"
               = Ok constructed_left) by reflexivity.
  assert (H3 : _device_json_list warm_device <> []) by discriminate.
  split; [exact H1 | split; [exact H2 | split; [exact H3 |]]].
  exact (assign_users_occupant_accessors_unbound
           warm_device warm_device (VStr "user-1") "left" constructed_left
           H1 H2 H3).
Defined.

(** C7, the code at the failing input.  Before the first snapshot is
    stored the history is the empty list, [device_data] raises
    [IndexError] and the accessors' [except TypeError] lets it through;
    constructing the occupant fails the same way. *)
Theorem accessors_raise_before_first_snapshot :
  heating_level EightSleep_init (occupant "Left" VNone) = Raise IndexError
  /\ target_heating_level EightSleep_init (occupant "Left" VNone) = Raise IndexError
  /\ now_heating EightSleep_init (occupant "Left" VNone) = Raise IndexError
  /\ heating_remaining EightSleep_init (occupant "Left" VNone) = Raise IndexError
  /\ heating_values EightSleep_init (occupant "Left" VNone) = Raise IndexError
  /\ heating_level EightSleep_init (occupant "left" VNone) = Raise UnboundLocalError
  /\ heating_values EightSleep_init (occupant "left" VNone) = Raise UnboundLocalError
  /\ EightUser_init EightSleep_init (VStr "user-1") "left" = Raise IndexError.
Proof. repeat split. Qed.

(** ** Presence inference *)

Lemma now_heating_set_presence dev b u :
  now_heating dev (set_presence b u) = now_heating dev u.
Proof. reflexivity. Qed.

Lemma heating_level_set_presence dev b u :
  heating_level dev (set_presence b u) = heating_level dev u.
Proof. reflexivity. Qed.

Lemma target_heating_level_set_presence dev b u :
  target_heating_level dev (set_presence b u) = target_heating_level dev u.
Proof. reflexivity. Qed.

Lemma set_presence_twice b c u :
  set_presence b (set_presence c u) = set_presence b u.
Proof. reflexivity. Qed.

Ltac presence_unfold :=
  unfold dynamic_presence, heat_delta, mbind, prop, expr, mret, assign_presence.

(** Symbolic execution of presence steps: reduce, bring every accessor
    call back to the occupant it started from, reuse what is already
    known about a condition, and split on the next open condition. *)
Ltac presence_run :=
  repeat first
    [ progress (cbv beta iota; cbn [fst snd negb])
    | progress rewrite ?now_heating_set_presence, ?heating_level_set_presence,
        ?target_heating_level_set_presence, ?set_presence_twice
    | match goal with
      | H : ?x = _ |- context [?x] => rewrite H
      end
    | match goal with
      | |- context [if ?c then _ else _] => destruct c eqn:?
      | |- context [match ?r with Ok _ => _ | Raise _ => _ end] =>
          destruct r eqn:?
      end ].

Lemma dynamic_presence_fixed (dev dev' : EightSleep) (u s : EightUser)
  (r : result unit) :
  same_heating_fields dev u dev' ->
  dynamic_presence dev u = (r, s) -> dynamic_presence dev' s = (r, s).
Proof.
  intros (Hn & Hl & Ht).
  unfold dynamic_presence at 1.
  unfold heat_delta, mbind, prop, expr, mret, assign_presence.
  presence_run.
  all: intros [= <- <-]; presence_unfold; presence_run; reflexivity.
Qed.

Lemma poll_ticks_settled (dev : EightSleep) (devs : list EightSleep)
  (u s : EightUser) :
  dynamic_presence dev u = (Ok tt, s) ->
  Forall (same_heating_fields dev u) devs ->
  poll_ticks devs s = (Ok tt, s).
Proof.
  intros Hstep Hsame.
  induction Hsame as [| dev' devs Hdev' _ IH]; [reflexivity |].
  cbn [poll_ticks]. unfold mbind.
  rewrite (dynamic_presence_fixed dev dev' u s (Ok tt) Hdev' Hstep).
  exact IH.
Qed.

(** C9.  When the heating fields read the same in every later poll as
    in the first one, a second presence step reproduces the outcome and
    the occupant of the first step, and so does any run of further
    steps: the state never flips after the first step. *)
Theorem dynamic_presence_stable_under_fixed_inputs (dev : EightSleep)
  (devs : list EightSleep) (u : EightUser) :
  Forall (same_heating_fields dev u) devs ->
  Forall (fun dev' =>
            dynamic_presence dev' (snd (dynamic_presence dev u))
            = dynamic_presence dev u) devs
  /\ poll_ticks (dev :: devs) u = dynamic_presence dev u
  /\ presence (snd (poll_ticks (dev :: devs) u))
     = presence (snd (dynamic_presence dev u)).
Proof.
  intros Hsame.
  assert (Hticks : poll_ticks (dev :: devs) u = dynamic_presence dev u).
  { cbn [poll_ticks]. unfold mbind.
    destruct (dynamic_presence dev u) as [[[] | e] s] eqn:Hstep;
      [| reflexivity].
    exact (poll_ticks_settled dev devs u s Hstep Hsame). }
  split; [| split].
  - destruct (dynamic_presence dev u) as [r s] eqn:Hstep. cbn [snd].
    eapply Forall_impl; [| exact Hsame].
    intros dev' Hdev'. exact (dynamic_presence_fixed dev dev' u s r Hdev' Hstep).
  - exact Hticks.
  - now rewrite Hticks.
Qed.

Lemma dynamic_presence_stable_under_fixed_inputs_witness :
  Forall (same_heating_fields heating_device left_occupant)
    [heating_device; later_heating_device]
  /\ dynamic_presence later_heating_device
       (snd (dynamic_presence heating_device left_occupant))
     = dynamic_presence heating_device left_occupant
  /\ poll_ticks [heating_device; heating_device; later_heating_device]
       left_occupant
     = (Ok tt, set_presence true left_occupant).
Proof.
  assert (Hsame : Forall (same_heating_fields heating_device left_occupant)
                    [heating_device; later_heating_device])
    by (repeat constructor).
  destruct (dynamic_presence_stable_under_fixed_inputs
              heating_device [heating_device; later_heating_device]
              left_occupant Hsame) as (Hall & Hticks & _).
  split; [exact Hsame | split].
  - inversion Hall as [| d1 l1 _ Hrest]. inversion Hrest as [| d2 l2 Hlater _].
    exact Hlater.
  - rewrite Hticks. reflexivity.
Defined.

Lemma Qc_leb_le (x y : Qc) : Qc_leb x y = true <-> (x <= y)%Qc.
Proof. unfold Qc_leb, Qcle. apply Qle_bool_iff. Qed.






Lemma conditions_exclusive (active : bool) (delta level : Qc) :
  present_condition delta level -> absent_condition active delta level -> False.
Proof.
  intros [H8 H25] [[_ H15] | [_ Hlt]].
  - assert (H : (num 25 <= num 15)%Qc) by (eapply Qcle_trans; eassumption).
    apply Qc_leb_le in H. discriminate H.
  - exact (Qclt_not_le _ _ Hlt H8).
Qed.



(** A heating level read as [None] makes every presence step raise:
    either an accessor fails, or [None - target] or [None <= 15] does. *)
Lemma dynamic_presence_raises_on_unknown_level (dev : EightSleep)
  (u : EightUser) :
  heating_level dev u = Ok VNone ->
  exists e, dynamic_presence dev u = (Raise e, u).
Proof.
  intros Hl. presence_unfold. presence_run.
  all: cbn in *; try discriminate; eauto.
Qed.

(** C4, the code at the failing input.  With the left heating level
    null in the snapshot the accessor yields [None], the delta is 0 and
    the present check is skipped, but [None <= 15] raises [TypeError];
    with no snapshot at all the first accessor call raises. *)
Theorem dynamic_presence_raises_without_level :
  heating_level unknown_level_device left_occupant = Ok VNone
  /\ heat_delta unknown_level_device left_occupant = (Ok (num 0), left_occupant)
  /\ dynamic_presence unknown_level_device left_occupant
     = (Raise TypeError, left_occupant)
  /\ dynamic_presence EightSleep_init left_occupant
     = (Raise IndexError, left_occupant).
Proof. repeat split. Qed.

(** ** Session views *)

Lemma seq_getitem_head {A} (x : A) (l : list A) : seq_getitem (x :: l) 0 = Ok x.
Proof.
  unfold seq_getitem. cbn [List.length].
  replace (0 <? 0) with false by reflexivity. cbv beta iota zeta.
  replace ((0 <=? 0) && (0 <? Z.of_nat (S (List.length l)))) with true.
  - reflexivity.
  - symmetry. apply andb_true_intro.
    split; [reflexivity | apply Z.ltb_lt; lia].
Qed.

Lemma seq_getitem_second {A} (x y : A) (l : list A) :
  seq_getitem (x :: y :: l) 1 = Ok y.
Proof.
  unfold seq_getitem. cbn [List.length].
  replace (1 <? 0) with false by reflexivity. cbv beta iota zeta.
  replace ((0 <=? 1) && (1 <? Z.of_nat (S (S (List.length l))))) with true.
  - reflexivity.
  - symmetry. apply andb_true_intro.
    split; [reflexivity | apply Z.ltb_lt; lia].
Qed.

Lemma interval_head u i0 rest :
  intervals u = VList (i0 :: rest) -> interval u 0 = Ok i0.
Proof. unfold interval. intros ->. apply seq_getitem_head. Qed.

Lemma interval_second u i0 i1 rest :
  intervals u = VList (i0 :: i1 :: rest) -> interval u 1 = Ok i1.
Proof. unfold interval. intros ->. apply seq_getitem_second. Qed.

Lemma interval_second_missing u i0 :
  intervals u = VList [i0] -> interval u 1 = Raise IndexError.
Proof. unfold interval. intros ->. reflexivity. Qed.

Lemma interval_head_missing u :
  intervals u = VList [] -> interval u 0 = Raise IndexError.
Proof. unfold interval. intros ->. reflexivity. Qed.

Ltac views_unfold :=
  unfold current_values, current_session_date, current_sleep_score,
    current_sleep_stage, current_sleep_breakdown, current_tnt,
    current_bed_temp, current_room_temp, current_resp_rate,
    current_heart_rate, current_sample,
    last_values, last_session_date, last_sleep_score, last_sleep_breakdown,
    last_tnt, last_bed_temp, last_room_temp, last_resp_rate, last_heart_rate,
    last_average, key, idx.


Section SessionFacts.

Variable strptime : value -> result Z.
Variable utc_offset : Z.

Lemma current_view_raises_on_empty_list (u : EightUser) :
  intervals u = VList [] ->
  current_fields_are strptime utc_offset u (Raise IndexError) (Raise IndexError).
Proof.
  intros H. apply interval_head_missing in H.
  unfold current_fields_are. views_unfold. rewrite H.
  repeat split; reflexivity.
Qed.

Lemma current_view_unbound_when_flag_not_True (u : EightUser)
  (i0 flag : value) (rest : list value) :
  intervals u = VList (i0 :: rest) ->
  getitem_str i0 "incomplete" = Ok flag ->
  is_True flag = false ->
  current_fields_are strptime utc_offset u (Raise UnboundLocalError) (Raise UnboundLocalError).
Proof.
  intros H Hflag Hnot. apply interval_head in H.
  unfold current_fields_are. views_unfold. rewrite H.
  cbn [bind]. rewrite Hflag. cbn [bind]. rewrite Hnot.
  repeat split; reflexivity.
Qed.

Lemma current_view_absent_without_flag (u : EightUser) (i0 : value)
  (rest : list value) :
  intervals u = VList (i0 :: rest) ->
  getitem_str i0 "incomplete" = Raise KeyError ->
  current_fields_are strptime utc_offset u (Ok VNone) (Ok (Json VNone)).
Proof.
  intros H Hflag. apply interval_head in H.
  unfold current_fields_are. views_unfold. rewrite H.
  cbn [bind]. rewrite Hflag.
  repeat split; reflexivity.
Qed.

(** C1, the code at the failing inputs.  Only [KeyError] is caught, so
    the empty intervals list ends every "current" field in [IndexError];
    and with [incomplete: false] present the [if] binds nothing and the
    [return] raises [UnboundLocalError]. *)
Theorem current_view_raises_without_active_session :
  current_fields_are strptime utc_offset no_nights
    (Raise IndexError) (Raise IndexError)
  /\ current_values strptime utc_offset no_nights = Raise IndexError
  /\ current_fields_are strptime utc_offset
       (occupant "Left" (VList [flagged_complete_night]))
       (Raise UnboundLocalError) (Raise UnboundLocalError)
  /\ current_values strptime utc_offset
       (occupant "Left" (VList [flagged_complete_night]))
     = Raise UnboundLocalError
  /\ current_fields_are strptime utc_offset
       (occupant "Left" (VList [completed_night]))
       (Ok VNone) (Ok (Json VNone)).
Proof. unfold current_fields_are. repeat split. Qed.

Lemma last_view_reads_second (u : EightUser) (i0 i1 : value)
  (rest : list value) :
  intervals u = VList (i0 :: i1 :: rest) ->
  getitem_str i0 "incomplete" = Ok (VBool true) ->
  (forall v, getitem_str i1 "ts" = Ok v ->
     last_session_date strptime utc_offset u = to_local strptime utc_offset v)
  /\ (forall v, getitem_str i1 "score" = Ok v -> last_sleep_score u = Ok v)
  /\ (forall v, getitem_str i1 "stages" = Ok v ->
        last_sleep_breakdown u = sleep_breakdown v)
  /\ (forall v, key (getitem_str i1 "timeseries") "tnt" = Ok v ->
        last_tnt u = (n <- len v ;; ret (VNum (num n))))
  /\ (forall metric v, key (getitem_str i1 "timeseries") metric = Ok v ->
        last_average metric u = series_average v).
Proof.
  intros Hi Hflag.
  pose proof (interval_head _ _ _ Hi) as H0.
  pose proof (interval_second _ _ _ _ Hi) as H1.
  views_unfold. rewrite H0, H1. cbn [bind]. rewrite Hflag. cbn [bind is_True].
  repeat split; intros; unfold key in *;
    match goal with H : _ = Ok _ |- _ => rewrite H end;
    cbn [bind ret try_except read_local]; try reflexivity.
  destruct v; reflexivity.
Qed.

Lemma last_view_reads_first (u : EightUser) (i0 : value) (rest : list value) :
  intervals u = VList (i0 :: rest) ->
  getitem_str i0 "incomplete" = Raise KeyError ->
  (forall v, getitem_str i0 "ts" = Ok v ->
     last_session_date strptime utc_offset u = to_local strptime utc_offset v)
  /\ (forall v, getitem_str i0 "score" = Ok v -> last_sleep_score u = Ok v)
  /\ (forall v, getitem_str i0 "stages" = Ok v ->
        last_sleep_breakdown u = sleep_breakdown v)
  /\ (forall v, key (getitem_str i0 "timeseries") "tnt" = Ok v ->
        last_tnt u = (n <- len v ;; ret (VNum (num n))))
  /\ (forall metric v, key (getitem_str i0 "timeseries") metric = Ok v ->
        last_average metric u = series_average v).
Proof.
  intros Hi Hflag.
  pose proof (interval_head _ _ _ Hi) as H0.
  views_unfold. rewrite H0. cbn [bind]. rewrite Hflag.
  cbn [bind try_except exn_eqb].
  repeat split; intros; unfold key in *;
    match goal with H : _ = Ok _ |- _ => rewrite H end;
    cbn [bind ret try_except read_local]; try reflexivity.
  destruct v; reflexivity.
Qed.

Lemma last_view_fails_on_single_running_session (u : EightUser) (i0 : value) :
  intervals u = VList [i0] ->
  getitem_str i0 "incomplete" = Ok (VBool true) ->
  last_fields_raise strptime utc_offset u IndexError
  /\ last_values strptime utc_offset u = Raise IndexError.
Proof.
  intros Hi Hflag.
  pose proof (interval_head _ _ _ Hi) as H0.
  pose proof (interval_second_missing _ _ Hi) as H1.
  unfold last_fields_raise. views_unfold. rewrite H0, H1.
  cbn [bind]. rewrite Hflag. repeat split; reflexivity.
Qed.

Lemma last_view_fails_on_empty_list (u : EightUser) :
  intervals u = VList [] ->
  last_fields_raise strptime utc_offset u IndexError
  /\ last_values strptime utc_offset u = Raise IndexError.
Proof.
  intros Hi. pose proof (interval_head_missing _ Hi) as H0.
  unfold last_fields_raise. views_unfold. rewrite H0.
  repeat split; reflexivity.
Qed.

(** C2, as the code has it.  Each "last" field reads from the second
    entry when the first carries [incomplete: true] and from the first
    entry when it has no [incomplete] key; when the entry to read does
    not exist (a single running session, or no session at all) every
    field raises the built-in [IndexError]. *)
Theorem last_view_reads_completed_session_or_IndexError :
  (forall u s, last_session u s ->
     (forall v, getitem_str s "ts" = Ok v ->
        last_session_date strptime utc_offset u = to_local strptime utc_offset v)
     /\ (forall v, getitem_str s "score" = Ok v -> last_sleep_score u = Ok v)
     /\ (forall v, getitem_str s "stages" = Ok v ->
           last_sleep_breakdown u = sleep_breakdown v)
     /\ (forall v, key (getitem_str s "timeseries") "tnt" = Ok v ->
           last_tnt u = (n <- len v ;; ret (VNum (num n))))
     /\ (forall v, key (getitem_str s "timeseries") "tempBedC" = Ok v ->
           last_bed_temp u = series_average v)
     /\ (forall v, key (getitem_str s "timeseries") "tempRoomC" = Ok v ->
           last_room_temp u = series_average v)
     /\ (forall v, key (getitem_str s "timeseries") "respiratoryRate" = Ok v ->
           last_resp_rate u = series_average v)
     /\ (forall v, key (getitem_str s "timeseries") "heartRate" = Ok v ->
           last_heart_rate u = series_average v))
  /\ (forall u i0,
        intervals u = VList [i0] ->
        getitem_str i0 "incomplete" = Ok (VBool true) ->
        last_fields_raise strptime utc_offset u IndexError
        /\ last_values strptime utc_offset u = Raise IndexError)
  /\ (forall u,
        intervals u = VList [] ->
        last_fields_raise strptime utc_offset u IndexError
        /\ last_values strptime utc_offset u = Raise IndexError).
Proof.
  split; [| split].
  - intros u s Hsel.
    assert (Hread :
      (forall v, getitem_str s "ts" = Ok v ->
         last_session_date strptime utc_offset u
         = to_local strptime utc_offset v)
      /\ (forall v, getitem_str s "score" = Ok v -> last_sleep_score u = Ok v)
      /\ (forall v, getitem_str s "stages" = Ok v ->
            last_sleep_breakdown u = sleep_breakdown v)
      /\ (forall v, key (getitem_str s "timeseries") "tnt" = Ok v ->
            last_tnt u = (n <- len v ;; ret (VNum (num n))))
      /\ (forall metric v, key (getitem_str s "timeseries") metric = Ok v ->
            last_average metric u = series_average v)).
    { destruct Hsel as [i0 i1 rest Hi Hflag | i0 rest Hi Hflag].
      - exact (last_view_reads_second u i0 i1 rest Hi Hflag).
      - exact (last_view_reads_first u i0 rest Hi Hflag). }
    destruct Hread as (Hts & Hscore & Hstages & Htnt & Havg).
    repeat split; try assumption; intros v Hv; now apply Havg.
  - apply last_view_fails_on_single_running_session.
  - apply last_view_fails_on_empty_list.
Qed.

End SessionFacts.

(** C2, counterexample.  A single session that is still running: the
    score of the "last" view fails with [IndexError], not with an
    exception class called [NoCompletedSessionError]. *)
Lemma last_sleep_score_single_running_not_NoCompletedSessionError :
  last_sleep_score first_night_running = Raise IndexError
  /\ last_sleep_score first_night_running
     <> Raise (UserError "NoCompletedSessionError").
Proof. split; [reflexivity | discriminate]. Qed.

Lemma last_view_reads_completed_session_or_IndexError_witness :
  last_session two_nights completed_night
  /\ getitem_str completed_night "score" = Ok (VNum (num 82))
  /\ last_sleep_score two_nights = Ok (VNum (num 82))
  /\ intervals first_night_running = VList [running_night]
  /\ getitem_str running_night "incomplete" = Ok (VBool true)
  /\ last_fields_raise sample_strptime 3600000000 first_night_running IndexError
  /\ intervals no_nights = VList []
  /\ last_fields_raise sample_strptime 3600000000 no_nights IndexError.
Proof.
  assert (Hsel : last_session two_nights completed_night)
    by (eapply last_is_second; reflexivity).
  assert (Hscore : getitem_str completed_night "score" = Ok (VNum (num 82)))
    by reflexivity.
  assert (Hone : intervals first_night_running = VList [running_night])
    by reflexivity.
  assert (Hflag : getitem_str running_night "incomplete" = Ok (VBool true))
    by reflexivity.
  assert (Hnone : intervals no_nights = VList []) by reflexivity.
  destruct (last_view_reads_completed_session_or_IndexError
              sample_strptime 3600000000) as (Hread & Hsingle & Hempty).
  destruct (Hread two_nights completed_night Hsel) as (_ & Hs & _).
  split; [exact Hsel | split; [exact Hscore | split; [exact (Hs _ Hscore) |]]].
  split; [exact Hone | split; [exact Hflag |]].
  split; [exact (proj1 (Hsingle _ _ Hone Hflag)) |].
  split; [exact Hnone | exact (proj1 (Hempty _ Hnone))].
Defined.

(** ** Averages of the "last" view *)







(** * Further properties of the code *)


Lemma num_this (z : Z) : (this (num z) == inject_Z z)%Q.
Proof. unfold num. cbn [this Q2Qc]. apply Qred_correct. Qed.



(** ** The history: latest after push, eviction *)

Lemma device_data_newest dev data :
  device_data (handle_device_json dev data) = Ok data.
Proof.
  unfold device_data, handle_device_json. cbn [_device_json_list].
  rewrite (firstn_cons 9 data). apply seq_getitem_head.
Qed.

(** X1.  After a push [device_data] returns the pushed snapshot,
    whatever the history held; after any non-empty run of pushes it
    returns the last one pushed and no longer raises. *)
Theorem device_data_after_push :
  (forall dev data, device_data (handle_device_json dev data) = Ok data)
  /\ (forall dev snaps newest,
         device_data (push_all dev (snaps ++ [newest])) = Ok newest).
Proof.
  split.
  - apply device_data_newest.
  - intros dev snaps newest. rewrite push_all_app.
    apply (device_data_newest (push_all dev snaps) newest).
Qed.

(** X2.  A push onto a history of fewer than ten snapshots keeps them
    all behind the new one; a push onto a full history drops exactly
    the oldest (the last element) and keeps the other nine in order. *)
Theorem handle_device_json_evicts_oldest (dev : EightSleep) (data : value) :
  (List.length (_device_json_list dev) <= 10)%nat ->
  _device_json_list (handle_device_json dev data)
  = data :: (if (List.length (_device_json_list dev) <? 10)%nat
             then _device_json_list dev
             else removelast (_device_json_list dev))
  /\ List.length (_device_json_list (handle_device_json dev data))
     = Nat.min 10 (S (List.length (_device_json_list dev))).
Proof.
  intros Hlen. unfold handle_device_json. cbn [_device_json_list].
  set (h := _device_json_list dev) in *.
  rewrite (firstn_cons 9 data h). split.
  - f_equal. destruct (Nat.ltb_spec (List.length h) 10) as [Hlt | Hge].
    + apply firstn_all2. lia.
    + rewrite removelast_firstn_len. f_equal. lia.
  - cbn [List.length]. rewrite length_firstn. lia.
Qed.

Lemma handle_device_json_evicts_oldest_witness :
  (List.length (_device_json_list full_device) <= 10)%nat
  /\ _device_json_list (handle_device_json full_device (poll_snapshot 11))
     = map poll_snapshot [11; 10; 9; 8; 7; 6; 5; 4; 3; 2].
Proof.
  assert (H : (List.length (_device_json_list full_device) <= 10)%nat)
    by (vm_compute; lia).
  split; [exact H |].
  rewrite (proj1 (handle_device_json_evicts_oldest
                    full_device (poll_snapshot 11) H)).
  reflexivity.
Defined.

(** ** The accessors on a stored snapshot *)

(** X3.  When the newest snapshot is a dict, an occupant on ['Left']
    reads the four [left...] fields of it and one on ['Right'] the four
    [right...] fields; a field the snapshot lacks raises [KeyError]
    (only [TypeError] is caught), it is not turned into [None]. *)
Theorem accessors_read_side_fields (dev : EightSleep) (u : EightUser)
  (d : list (string * value)) :
  device_data dev = Ok (VDict d) ->
  (side u = "Left" ->
     heating_level dev u = getitem_str (VDict d) "leftHeatingLevel"
     /\ target_heating_level dev u = getitem_str (VDict d) "leftTargetHeatingLevel"
     /\ now_heating dev u = getitem_str (VDict d) "leftNowHeating"
     /\ heating_remaining dev u = getitem_str (VDict d) "leftHeatingDuration"
     /\ (lookup "leftHeatingLevel" d = None ->
         heating_level dev u = Raise KeyError
         /\ heating_values dev u = Raise KeyError))
  /\ (side u = "Right" ->
     heating_level dev u = getitem_str (VDict d) "rightHeatingLevel"
     /\ target_heating_level dev u = getitem_str (VDict d) "rightTargetHeatingLevel"
     /\ now_heating dev u = getitem_str (VDict d) "rightNowHeating"
     /\ heating_remaining dev u = getitem_str (VDict d) "rightHeatingDuration"
     /\ (lookup "rightHeatingLevel" d = None ->
         heating_level dev u = Raise KeyError
         /\ heating_values dev u = Raise KeyError)).
Proof.
  intros Hdev.
  assert (Hread : forall k,
             try_except (level <- (v <- key (device_data dev) k ;; ret (Some v)) ;;
                         read_local level) TypeError (ret VNone)
             = getitem_str (VDict d) k).
  { intros k. unfold key. rewrite Hdev. cbn [bind getitem_str].
    destruct (lookup k d); reflexivity. }
  split; intros Hside;
    unfold heating_values, heating_level, target_heating_level, now_heating,
      heating_remaining; rewrite Hside; cbn [String.eqb Ascii.eqb Bool.eqb];
    rewrite !Hread; repeat split; try reflexivity;
    cbn [getitem_str];
    match goal with H : lookup _ d = None |- _ => rewrite H end;
    reflexivity.
Qed.

Lemma accessors_read_side_fields_witness :
  device_data heating_device
  = Ok (left_snapshot (VNum (num 30)) (VNum (num 10)) (VBool true))
  /\ side left_occupant = "Left"
  /\ heating_level heating_device left_occupant = Ok (VNum (num 30))
  /\ side right_occupant = "Right"
  /\ heating_values heating_device right_occupant = Raise KeyError.
Proof.
  assert (Hdev : device_data heating_device
                 = Ok (left_snapshot (VNum (num 30)) (VNum (num 10)) (VBool true)))
    by reflexivity.
  assert (HL : side left_occupant = "Left") by reflexivity.
  assert (HR : side right_occupant = "Right") by reflexivity.
  split; [exact Hdev | split; [exact HL | split; [| split; [exact HR |]]]].
  - exact (proj1 (proj1 (accessors_read_side_fields
                           heating_device left_occupant _ Hdev) HL)).
  - destruct (proj2 (accessors_read_side_fields
                       heating_device right_occupant _ Hdev) HR)
      as (_ & _ & _ & _ & Hmissing).
    exact (proj2 (Hmissing eq_refl)).
Defined.

(** X4.  When the newest snapshot is not a dict (for instance [None]),
    subscripting it raises [TypeError], which the accessors catch: on
    ['Left'] and on ['Right'] all four yield [None] and [heating_values]
    is the dict of four [None]s. *)
Theorem accessors_none_on_non_dict_snapshot (dev : EightSleep)
  (u : EightUser) (snapshot : value) :
  device_data dev = Ok snapshot ->
  (forall d, snapshot <> VDict d) ->
  side u = "Left" \/ side u = "Right" ->
  heating_level dev u = Ok VNone
  /\ target_heating_level dev u = Ok VNone
  /\ now_heating dev u = Ok VNone
  /\ heating_remaining dev u = Ok VNone
  /\ heating_values dev u
     = Ok (VDict [("level", VNone); ("target", VNone);
                  ("active", VNone); ("remaining", VNone)]).
Proof.
  intros Hdev Hshape Hside.
  assert (Hread : forall k,
             try_except (level <- (v <- key (device_data dev) k ;; ret (Some v)) ;;
                         read_local level) TypeError (ret VNone)
             = Ok VNone).
  { intros k. unfold key. rewrite Hdev. cbn [bind].
    destruct snapshot; try reflexivity. now destruct (Hshape d). }
  unfold heating_values, heating_level, target_heating_level, now_heating,
    heating_remaining.
  destruct Hside as [-> | ->]; cbn [String.eqb Ascii.eqb Bool.eqb];
    rewrite !Hread; repeat split; reflexivity.
Qed.

Lemma accessors_none_on_non_dict_snapshot_witness :
  device_data null_snapshot_device = Ok VNone
  /\ (forall d, VNone <> VDict d)
  /\ (side left_occupant = "Left" \/ side left_occupant = "Right")
  /\ heating_values null_snapshot_device left_occupant
     = Ok (VDict [("level", VNone); ("target", VNone);
                  ("active", VNone); ("remaining", VNone)]).
Proof.
  assert (H1 : device_data null_snapshot_device = Ok VNone) by reflexivity.
  assert (H2 : forall d, VNone <> VDict d) by (intros d; discriminate).
  assert (H3 : side left_occupant = "Left" \/ side left_occupant = "Right")
    by (left; reflexivity).
  split; [exact H1 | split; [exact H2 | split; [exact H3 |]]].
  exact (proj2 (proj2 (proj2 (proj2
           (accessors_none_on_non_dict_snapshot
              null_snapshot_device left_occupant VNone H1 H2 H3))))).
Defined.

(** ** Presence steps: what they leave alone *)

Lemma dynamic_presence_outcome (dev : EightSleep) (u s : EightUser)
  (r : result unit) :
  dynamic_presence dev u = (r, s) ->
  (s = u \/ s = set_presence true u \/ s = set_presence false u)
  /\ (forall e, r = Raise e -> s = u).
Proof.
  presence_unfold. presence_run.
  all: intros [= <- <-]; split; [auto | intros ? [=]]; auto.
  all: unfold ge, le in *;
    match goal with
    | H : match as_num ?v with _ => _ end = Ok _ |- _ =>
        destruct (as_num v); discriminate
    end.
Qed.

(** X5.  A presence step assigns nothing but [presence]: the occupant
    it leaves is the one it found, or that one with presence set; and a
    step that raises leaves the occupant exactly as it found it (no
    assignment precedes a failure). *)
Theorem dynamic_presence_changes_presence_only (dev : EightSleep)
  (u : EightUser) :
  (snd (dynamic_presence dev u) = u
   \/ snd (dynamic_presence dev u) = set_presence true u
   \/ snd (dynamic_presence dev u) = set_presence false u)
  /\ (forall e, fst (dynamic_presence dev u) = Raise e ->
                snd (dynamic_presence dev u) = u).
Proof.
  destruct (dynamic_presence dev u) as [r s] eqn:H. cbn [fst snd].
  exact (dynamic_presence_outcome dev u s r H).
Qed.

Lemma dynamic_presence_changes_presence_only_witness :
  fst (dynamic_presence unknown_level_device left_occupant) = Raise TypeError
  /\ snd (dynamic_presence unknown_level_device left_occupant) = left_occupant.
Proof.
  assert (H : fst (dynamic_presence unknown_level_device left_occupant)
              = Raise TypeError) by reflexivity.
  split; [exact H |].
  exact (proj2 (dynamic_presence_changes_presence_only
                  unknown_level_device left_occupant) TypeError H).
Defined.




(** ** Sleep breakdown *)

Lemma num_add (x y : Z) : num (x + y) = (num x + num y)%Qc.
Proof.
  apply Qc_is_canon. unfold Qcplus. cbn [this Q2Qc].
  rewrite Qred_correct, !num_this, inject_Z_plus. reflexivity.
Qed.

Lemma breakdown_loop (entries : list (string * Z)) (a l d : Z) :
  for_each breakdown_step
    (map (fun e => stage_entry (fst e) (snd e)) entries) (num a, num l, num d)
  = Ok (num (a + kind_total "awake" entries),
        num (l + kind_total "light" entries),
        num (d + kind_total "deep" entries)).
Proof.
  revert a l d. induction entries as [| [k s] entries IH]; intros a l d.
  - cbn. now rewrite !Z.add_0_r.
  - cbn [map for_each fst snd kind_total fold_right].
    fold (kind_total "awake" entries) (kind_total "light" entries)
      (kind_total "deep" entries).
    unfold breakdown_step at 1.
    change (getitem_str (stage_entry k s) "stage") with (Ok (VStr k)).
    change (getitem_str (stage_entry k s) "duration") with (Ok (VNum (num s))).
    cbn [bind eq_str].
    destruct (String.eqb k "awake") eqn:Ea.
    { apply String.eqb_eq in Ea. subst k. cbn [String.eqb Ascii.eqb Bool.eqb].
      unfold add, arith. cbn [as_num bind ret]. rewrite <- num_add, IH.
      rewrite ?Z.add_assoc. reflexivity. }
    destruct (String.eqb k "light") eqn:El.
    { apply String.eqb_eq in El. subst k. cbn [String.eqb Ascii.eqb Bool.eqb].
      unfold add, arith. cbn [as_num bind ret]. rewrite <- num_add, IH.
      rewrite ?Z.add_assoc. reflexivity. }
    destruct (String.eqb k "deep") eqn:Ed.
    { unfold add, arith. cbn [as_num bind ret]. rewrite <- num_add, IH.
      rewrite ?Z.add_assoc. reflexivity. }
    cbn [bind ret]. rewrite IH. reflexivity.
Qed.

Lemma sleep_breakdown_of (entries : list (string * Z)) :
  sleep_breakdown (stage_list entries) = Ok (breakdown_of entries).
Proof.
  unfold sleep_breakdown, stage_list. cbn [iter bind].
  rewrite (breakdown_loop entries 0 0 0). reflexivity.
Qed.

Lemma kind_totals_cover (entries : list (string * Z)) :
  Forall (fun e => In (fst e) ["awake"; "light"; "deep"]) entries ->
  kind_total "awake" entries + kind_total "light" entries
  + kind_total "deep" entries
  = fold_right Z.add 0 (map snd entries).
Proof.
  induction 1 as [| [k s] entries Hk _ IH]; [reflexivity |].
  cbn [kind_total fold_right map fst snd] in *.
  fold (kind_total "awake" entries) (kind_total "light" entries)
    (kind_total "deep" entries).
  destruct Hk as [<- | [<- | [<- | []]]];
    cbn [String.eqb Ascii.eqb Bool.eqb]; lia.
Qed.

Lemma last_sleep_breakdown_reads (u : EightUser) (s v : value) :
  last_session u s ->
  getitem_str s "stages" = Ok v ->
  last_sleep_breakdown u = sleep_breakdown v.
Proof.
  intros [i0 i1 rest Hi Hflag | i0 rest Hi Hflag] Hv;
    pose proof (interval_head _ _ _ Hi) as H0;
    unfold last_sleep_breakdown, key in *; rewrite H0; cbn [bind]; rewrite Hflag.
  - rewrite (interval_second _ _ _ _ Hi). cbn [bind is_True].
    rewrite Hv. reflexivity.
  - cbn [try_except exn_eqb bind]. rewrite Hv. reflexivity.
Qed.

(** X7.  For the session the "last" view reads, the breakdown holds per
    kind the sum of the durations of the stages of that kind; stages of
    any other kind are skipped, so the three entries add up to the
    whole session exactly when every stage is awake, light or deep. *)
Theorem last_sleep_breakdown_sums_durations (u : EightUser) (s : value)
  (entries : list (string * Z)) :
  last_session u s ->
  getitem_str s "stages" = Ok (stage_list entries) ->
  last_sleep_breakdown u = Ok (breakdown_of entries)
  /\ (Forall (fun e => In (fst e) ["awake"; "light"; "deep"]) entries ->
      kind_total "awake" entries + kind_total "light" entries
      + kind_total "deep" entries
      = fold_right Z.add 0 (map snd entries)).
Proof.
  intros Hsel Hv. split.
  - rewrite (last_sleep_breakdown_reads u s _ Hsel Hv).
    apply sleep_breakdown_of.
  - apply kind_totals_cover.
Qed.

Lemma last_sleep_breakdown_sums_durations_witness :
  last_session two_nights completed_night
  /\ getitem_str completed_night "stages"
     = Ok (stage_list [("awake", 600); ("light", 7200); ("deep", 3600)])
  /\ last_sleep_breakdown two_nights
     = Ok (breakdown_of [("awake", 600); ("light", 7200); ("deep", 3600)])
  /\ kind_total "awake" [("awake", 600); ("light", 7200); ("deep", 3600)]
     + kind_total "light" [("awake", 600); ("light", 7200); ("deep", 3600)]
     + kind_total "deep" [("awake", 600); ("light", 7200); ("deep", 3600)]
     = 11400.
Proof.
  assert (Hsel : last_session two_nights completed_night)
    by (eapply last_is_second; reflexivity).
  assert (Hv : getitem_str completed_night "stages"
               = Ok (stage_list [("awake", 600); ("light", 7200); ("deep", 3600)]))
    by reflexivity.
  destruct (last_sleep_breakdown_sums_durations
              two_nights completed_night _ Hsel Hv) as [Hb Hsum].
  split; [exact Hsel | split; [exact Hv | split; [exact Hb |]]].
  rewrite Hsum; [reflexivity |].
  repeat (constructor; [cbn; tauto |]). constructor.
Defined.

(** ** The "current" view of a running session *)

Lemma seq_getitem_final {A} (l : list A) (x : A) :
  seq_getitem (l ++ [x]) (Z.of_nat (List.length (l ++ [x])) - 1) = Ok x.
Proof.
  unfold seq_getitem. rewrite length_app. cbn [List.length].
  set (n := List.length l).
  replace (Z.of_nat (n + 1) - 1) with (Z.of_nat n) by lia.
  replace (Z.of_nat n <? 0) with false by (symmetry; apply Z.ltb_ge; lia).
  cbv beta iota zeta.
  replace ((0 <=? Z.of_nat n) && (Z.of_nat n <? Z.of_nat (n + 1))) with true.
  - rewrite Nat2Z.id. unfold n. rewrite nth_error_app2, Nat.sub_diag by lia.
    reflexivity.
  - symmetry. apply andb_true_intro.
    split; [apply Z.leb_le | apply Z.ltb_lt]; lia.
Qed.

Lemma latest_sample_final (earlier : list (value * Qc)) (t : value) (v : Qc) :
  latest_sample (VList (map sample (earlier ++ [(t, v)]))) = Ok (VNum v).
Proof.
  unfold latest_sample. cbn [len bind getitem_int].
  rewrite map_app. cbn [map]. rewrite seq_getitem_final. reflexivity.
Qed.

Lemma len_stage_list (entries : list (string * Z)) :
  len (stage_list entries) = Ok (Z.of_nat (List.length entries)).
Proof. unfold stage_list. cbn [len]. now rewrite length_map. Qed.

Lemma final_stage (earlier : list (string * Z)) (kind : string) (secs : Z) :
  getitem_int (stage_list (earlier ++ [(kind, secs)]))
    (Z.of_nat (List.length (earlier ++ [(kind, secs)])) - 1)
  = Ok (stage_entry kind secs).
Proof.
  unfold stage_list. cbn [getitem_int].
  rewrite map_app. cbn [map fst snd].
  replace (List.length (earlier ++ [(kind, secs)]))
    with (List.length
            (map (fun e => stage_entry (fst e) (snd e)) earlier
             ++ [stage_entry kind secs]))
    by (rewrite !length_app, length_map; reflexivity).
  apply seq_getitem_final.
Qed.

Section RunningSession.

Variable strptime : value -> result Z.
Variable utc_offset : Z.

Variable u : EightUser.
Variable i0 : value.
Variable rest : list value.
Hypothesis Hintervals : intervals u = VList (i0 :: rest).
Hypothesis Hrunning : getitem_str i0 "incomplete" = Ok (VBool true).

Ltac enter_running :=
  views_unfold; rewrite (interval_head _ _ _ Hintervals); cbn [bind];
  rewrite Hrunning; cbn [bind is_True].

(** X8.  While the first entry carries [incomplete: true], the
    "current" view is read from that entry: its score, the kind of its
    last stage, the per-kind sums of its stages so far, the number of
    its toss-and-turn samples, the value of the last sample of each of
    the four timeseries, and its start time moved by the local offset. *)
Theorem current_view_reads_running_session :
  (forall v t, getitem_str i0 "ts" = Ok v -> strptime v = Ok t ->
     current_session_date strptime utc_offset u = Ok (Datetime (t + utc_offset)))
  /\ (forall v, getitem_str i0 "score" = Ok v -> current_sleep_score u = Ok v)
  /\ (forall earlier kind secs,
        getitem_str i0 "stages" = Ok (stage_list (earlier ++ [(kind, secs)])) ->
        current_sleep_stage u = Ok (VStr kind))
  /\ (forall entries,
        getitem_str i0 "stages" = Ok (stage_list entries) ->
        current_sleep_breakdown u = Ok (breakdown_of entries))
  /\ (forall l,
        key (getitem_str i0 "timeseries") "tnt" = Ok (VList l) ->
        current_tnt u = Ok (VNum (num (Z.of_nat (List.length l)))))
  /\ (forall earlier t v,
        key (getitem_str i0 "timeseries") "tempBedC"
        = Ok (VList (map sample (earlier ++ [(t, v)]))) ->
        current_bed_temp u = Ok (VNum v))
  /\ (forall earlier t v,
        key (getitem_str i0 "timeseries") "tempRoomC"
        = Ok (VList (map sample (earlier ++ [(t, v)]))) ->
        current_room_temp u = Ok (VNum v))
  /\ (forall earlier t v,
        key (getitem_str i0 "timeseries") "respiratoryRate"
        = Ok (VList (map sample (earlier ++ [(t, v)]))) ->
        current_resp_rate u = Ok (VNum v))
  /\ (forall earlier t v,
        key (getitem_str i0 "timeseries") "heartRate"
        = Ok (VList (map sample (earlier ++ [(t, v)]))) ->
        current_heart_rate u = Ok (VNum v)).
Proof.
  repeat split; intros; enter_running; unfold key in *.
  - rewrite H. cbn [bind]. unfold to_local. rewrite H0. reflexivity.
  - rewrite H. reflexivity.
  - rewrite H. cbn [bind]. rewrite len_stage_list. cbn [bind].
    rewrite final_stage. reflexivity.
  - rewrite H. cbn [bind]. rewrite sleep_breakdown_of. reflexivity.
  - rewrite H. reflexivity.
  - rewrite H. cbn [bind]. rewrite latest_sample_final. reflexivity.
  - rewrite H. cbn [bind]. rewrite latest_sample_final. reflexivity.
  - rewrite H. cbn [bind]. rewrite latest_sample_final. reflexivity.
  - rewrite H. cbn [bind]. rewrite latest_sample_final. reflexivity.
Qed.

(** X9.  In a running session a key that is missing where a field
    looks for it ends in the [except KeyError] branch: the field is
    [None], it does not raise. *)
Theorem current_view_missing_key_is_None :
  (getitem_str i0 "ts" = Raise KeyError ->
     current_session_date strptime utc_offset u = Ok (Json VNone))
  /\ (getitem_str i0 "score" = Raise KeyError -> current_sleep_score u = Ok VNone)
  /\ (getitem_str i0 "stages" = Raise KeyError ->
        current_sleep_stage u = Ok VNone
        /\ current_sleep_breakdown u = Ok VNone)
  /\ (getitem_str i0 "timeseries" = Raise KeyError ->
        current_tnt u = Ok VNone
        /\ current_bed_temp u = Ok VNone
        /\ current_room_temp u = Ok VNone
        /\ current_resp_rate u = Ok VNone
        /\ current_heart_rate u = Ok VNone)
  /\ (forall series,
        getitem_str i0 "timeseries" = Ok (VDict series) ->
        lookup "heartRate" series = None ->
        current_heart_rate u = Ok VNone).
Proof.
  repeat split; intros; enter_running;
    match goal with H : _ = _ |- _ => rewrite H end;
    try reflexivity.
  cbn [bind getitem_str]. rewrite H0. reflexivity.
Qed.

(** X10.  A running session whose stage list or timeseries is still
    empty: the fields that take the last element index it with
    [len - 1 = -1] and raise [IndexError], which is not caught; the
    breakdown is all zeros and the toss-and-turn count is 0. *)
Theorem current_view_empty_sequences :
  (getitem_str i0 "stages" = Ok (VList []) ->
     current_sleep_stage u = Raise IndexError
     /\ current_sleep_breakdown u = Ok (breakdown_of []))
  /\ (key (getitem_str i0 "timeseries") "tempBedC" = Ok (VList []) ->
        current_bed_temp u = Raise IndexError)
  /\ (key (getitem_str i0 "timeseries") "tempRoomC" = Ok (VList []) ->
        current_room_temp u = Raise IndexError)
  /\ (key (getitem_str i0 "timeseries") "respiratoryRate" = Ok (VList []) ->
        current_resp_rate u = Raise IndexError)
  /\ (key (getitem_str i0 "timeseries") "heartRate" = Ok (VList []) ->
        current_heart_rate u = Raise IndexError)
  /\ (key (getitem_str i0 "timeseries") "tnt" = Ok (VList []) ->
        current_tnt u = Ok (VNum (num 0))).
Proof.
  repeat split; intros; enter_running; unfold key in *;
    rewrite H; reflexivity.
Qed.

End RunningSession.

Lemma current_view_reads_running_session_witness :
  intervals first_night_running = VList [running_night]
  /\ getitem_str running_night "incomplete" = Ok (VBool true)
  /\ current_sleep_score first_night_running = Ok (VNum (num 40))
  /\ current_sleep_stage first_night_running = Ok (VStr "deep")
  /\ current_bed_temp first_night_running = Ok (VNum (num 22))
  /\ current_session_date sample_strptime 3600000000 first_night_running
     = Ok (Datetime (1488349800000000 + 3600000000)).
Proof.
  assert (H1 : intervals first_night_running = VList [running_night])
    by reflexivity.
  assert (H2 : getitem_str running_night "incomplete" = Ok (VBool true))
    by reflexivity.
  destruct (current_view_reads_running_session
              sample_strptime 3600000000
              first_night_running running_night [] H1 H2)
    as (Hdate & Hscore & Hstage & _ & _ & Hbed & _).
  split; [exact H1 | split; [exact H2 | split; [| split; [| split]]]].
  - exact (Hscore (VNum (num 40)) eq_refl).
  - exact (Hstage [("awake", 600); ("light", 7200)] "deep" 3600 eq_refl).
  - exact (Hbed [(VStr "t1", num 20)] (VStr "t2") (num 22) eq_refl).
  - exact (Hdate (VStr "2017-03-01T06:30:00.000Z") 1488349800000000
             eq_refl eq_refl).
Defined.

Lemma current_view_missing_key_is_None_witness :
  intervals bare_night_running = VList [bare_running_night]
  /\ getitem_str bare_running_night "incomplete" = Ok (VBool true)
  /\ getitem_str bare_running_night "score" = Raise KeyError
  /\ current_sleep_score bare_night_running = Ok VNone
  /\ getitem_str bare_running_night "timeseries" = Raise KeyError
  /\ current_bed_temp bare_night_running = Ok VNone.
Proof.
  assert (H1 : intervals bare_night_running = VList [bare_running_night])
    by reflexivity.
  assert (H2 : getitem_str bare_running_night "incomplete" = Ok (VBool true))
    by reflexivity.
  assert (H3 : getitem_str bare_running_night "score" = Raise KeyError)
    by reflexivity.
  assert (H4 : getitem_str bare_running_night "timeseries" = Raise KeyError)
    by reflexivity.
  destruct (current_view_missing_key_is_None
              sample_strptime 3600000000
              bare_night_running bare_running_night [] H1 H2)
    as (_ & Hscore & _ & Hseries & _).
  split; [exact H1 | split; [exact H2 | split; [exact H3 |]]].
  split; [exact (Hscore H3) | split; [exact H4 |]].
  exact (proj1 (proj2 (Hseries H4))).
Defined.

Lemma current_view_empty_sequences_witness :
  intervals fresh_night_running = VList [fresh_running_night]
  /\ getitem_str fresh_running_night "incomplete" = Ok (VBool true)
  /\ getitem_str fresh_running_night "stages" = Ok (VList [])
  /\ current_sleep_stage fresh_night_running = Raise IndexError
  /\ key (getitem_str fresh_running_night "timeseries") "tempBedC" = Ok (VList [])
  /\ current_bed_temp fresh_night_running = Raise IndexError.
Proof.
  assert (H1 : intervals fresh_night_running = VList [fresh_running_night])
    by reflexivity.
  assert (H2 : getitem_str fresh_running_night "incomplete" = Ok (VBool true))
    by reflexivity.
  assert (H3 : getitem_str fresh_running_night "stages" = Ok (VList []))
    by reflexivity.
  assert (H4 : key (getitem_str fresh_running_night "timeseries") "tempBedC"
               = Ok (VList [])) by reflexivity.
  destruct (current_view_empty_sequences
              fresh_night_running fresh_running_night [] H1 H2)
    as (Hstages & Hbed & _).
  split; [exact H1 | split; [exact H2 | split; [exact H3 |]]].
  split; [exact (proj1 (Hstages H3)) | split; [exact H4 | exact (Hbed H4)]].
Defined.

(** ** The "last" view off the expected path *)

Section LastViewEdges.

Variable strptime : value -> result Z.
Variable utc_offset : Z.

(** X11.  With a running first entry, a "last" field whose key is
    missing from the second entry does not fail: the [KeyError] is
    caught by the same handler that serves the no-flag case, and the
    field is read from the first entry, the running session. *)
Theorem last_view_falls_back_to_running_session (u : EightUser)
  (i0 i1 : value) (rest : list value) :
  intervals u = VList (i0 :: i1 :: rest) ->
  getitem_str i0 "incomplete" = Ok (VBool true) ->
  (getitem_str i1 "score" = Raise KeyError ->
     last_sleep_score u = getitem_str i0 "score")
  /\ (getitem_str i1 "ts" = Raise KeyError ->
        last_session_date strptime utc_offset u
        = (d <- getitem_str i0 "ts" ;; to_local strptime utc_offset d))
  /\ (getitem_str i1 "stages" = Raise KeyError ->
        last_sleep_breakdown u
        = (st <- getitem_str i0 "stages" ;; sleep_breakdown st))
  /\ (getitem_str i1 "timeseries" = Raise KeyError ->
        last_tnt u
        = (series <- key (getitem_str i0 "timeseries") "tnt" ;;
           n <- len series ;; ret (VNum (num n)))
        /\ forall metric,
             last_average metric u
             = (series <- key (getitem_str i0 "timeseries") metric ;;
                series_average series)).
Proof.
  intros Hi Hflag.
  pose proof (interval_head _ _ _ Hi) as H0.
  pose proof (interval_second _ _ _ _ Hi) as H1.
  repeat split; intros; views_unfold; rewrite H0, H1; cbn [bind];
    rewrite Hflag; cbn [bind is_True]; rewrite H;
    cbn [bind try_except exn_eqb].
  - destruct (getitem_str i0 "score"); reflexivity.
  - destruct (getitem_str i0 "ts"); reflexivity.
  - destruct (getitem_str i0 "stages"); reflexivity.
  - destruct (getitem_str i0 "timeseries") as [ts | e]; [| reflexivity].
    cbn [bind]. destruct (getitem_str ts "tnt") as [v | e]; [| reflexivity].
    cbn [bind]. destruct v; reflexivity.
  - destruct (getitem_str i0 "timeseries") as [ts | e]; [| reflexivity].
    cbn [bind]. destruct (getitem_str ts metric); reflexivity.
Qed.

(** X12.  When the first entry carries an [incomplete] value other than
    [True] (for instance [False]), no branch binds the local and every
    "last" field raises [UnboundLocalError]. *)
Theorem last_view_unbound_when_flag_not_True (u : EightUser)
  (i0 flag : value) (rest : list value) :
  intervals u = VList (i0 :: rest) ->
  getitem_str i0 "incomplete" = Ok flag ->
  is_True flag = false ->
  last_fields_raise strptime utc_offset u UnboundLocalError
  /\ last_values strptime utc_offset u = Raise UnboundLocalError.
Proof.
  intros Hi Hflag Hnot. apply interval_head in Hi.
  unfold last_fields_raise. views_unfold. rewrite Hi.
  cbn [bind]. rewrite Hflag. cbn [bind]. rewrite Hnot.
  repeat split; reflexivity.
Qed.

(** X13.  An occupant as the constructor leaves it has [intervals =
    None]: until [update_intervals_data] stores a list, every field of
    both views raises [TypeError] ([None] is not subscriptable), which
    no handler catches. *)
Theorem views_raise_before_intervals_are_loaded (dev : EightSleep)
  (uid : value) (sd : string) (u : EightUser) :
  EightUser_init dev uid sd = Ok u ->
  intervals u = VNone
  /\ current_fields_are strptime utc_offset u (Raise TypeError) (Raise TypeError)
  /\ current_values strptime utc_offset u = Raise TypeError
  /\ last_fields_raise strptime utc_offset u TypeError
  /\ last_values strptime utc_offset u = Raise TypeError.
Proof.
  unfold EightUser_init. destruct (device_data dev); cbn [bind ret];
    [| discriminate].
  intros [= <-]. repeat split.
Qed.

End LastViewEdges.

Lemma last_view_falls_back_to_running_session_witness :
  intervals (occupant "Left" (VList [running_night; bare_running_night]))
  = VList [running_night; bare_running_night]
  /\ getitem_str running_night "incomplete" = Ok (VBool true)
  /\ getitem_str bare_running_night "score" = Raise KeyError
  /\ last_sleep_score (occupant "Left" (VList [running_night; bare_running_night]))
     = Ok (VNum (num 40)).
Proof.
  assert (H1 : intervals (occupant "Left" (VList [running_night; bare_running_night]))
               = VList [running_night; bare_running_night]) by reflexivity.
  assert (H2 : getitem_str running_night "incomplete" = Ok (VBool true))
    by reflexivity.
  assert (H3 : getitem_str bare_running_night "score" = Raise KeyError)
    by reflexivity.
  split; [exact H1 | split; [exact H2 | split; [exact H3 |]]].
  rewrite (proj1 (last_view_falls_back_to_running_session
                    sample_strptime 3600000000 _ _ _ _ H1 H2) H3).
  reflexivity.
Defined.

Lemma last_view_unbound_when_flag_not_True_witness :
  intervals (occupant "Left" (VList [flagged_complete_night]))
  = VList [flagged_complete_night]
  /\ getitem_str flagged_complete_night "incomplete" = Ok (VBool false)
  /\ is_True (VBool false) = false
  /\ last_values sample_strptime 3600000000
       (occupant "Left" (VList [flagged_complete_night]))
     = Raise UnboundLocalError.
Proof.
  assert (H1 : intervals (occupant "Left" (VList [flagged_complete_night]))
               = VList [flagged_complete_night]) by reflexivity.
  assert (H2 : getitem_str flagged_complete_night "incomplete"
               = Ok (VBool false)) by reflexivity.
  assert (H3 : is_True (VBool false) = false) by reflexivity.
  split; [exact H1 | split; [exact H2 | split; [exact H3 |]]].
  exact (proj2 (last_view_unbound_when_flag_not_True
                  sample_strptime 3600000000 _ _ _ _ H1 H2 H3)).
Defined.

Lemma views_raise_before_intervals_are_loaded_witness :
  EightUser_init warm_device (VStr "user-1") "left" = Ok constructed_left
  /\ last_values sample_strptime 3600000000 constructed_left = Raise TypeError.
Proof.
  assert (H : EightUser_init warm_device (VStr "user-1") "left"
              = Ok constructed_left) by reflexivity.
  split; [exact H |].
  exact (proj2 (proj2 (proj2 (proj2
           (views_raise_before_intervals_are_loaded
              sample_strptime 3600000000 _ _ _ _ H))))).
Defined.

(** ** The averages stay within the samples *)






(** ** Registering occupants: [assign_users] and [fetch_user_id] *)

Section AssignUsersFacts.

Variable update_user_profile : M unit.

Lemma assign_side_cases dev response users sd :
  assign_side update_user_profile dev response users sd
  = match side_user_id response sd with
    | Raise e => (Raise e, users)
    | Ok id =>
        if is_None id then (Ok tt, users)
        else match users_contains users id with
             | Raise e => (Raise e, users)
             | Ok true => (Ok tt, users)
             | Ok false =>
                 match EightUser_init dev id sd with
                 | Raise e => (Raise e, users)
                 | Ok user =>
                     (fst (update_user_profile user),
                      (users ++ [(id, snd (update_user_profile user))])%list)
                 end
             end
    end.
Proof.
  unfold assign_side.
  destruct (side_user_id response sd) as [id | e]; [| reflexivity].
  cbn [bind]. destruct (is_None id); cbn [negb]; [reflexivity |].
  destruct (users_contains users id) as [[|] | e]; cbn [bind ret negb];
    try reflexivity.
  destruct (EightUser_init dev id sd) as [user | e]; [| reflexivity].
  destruct (update_user_profile user); reflexivity.
Qed.

Lemma assign_side_appends dev response users sd :
  exists new,
    snd (assign_side update_user_profile dev response users sd)
    = (users ++ new)%list
    /\ (List.length new <= 1)%nat
    /\ Forall (fun kv =>
                 is_None (fst kv) = false
                 /\ users_contains users (fst kv) = Ok false
                 /\ exists user, EightUser_init dev (fst kv) sd = Ok user
                                 /\ snd kv = snd (update_user_profile user)) new.
Proof.
  rewrite assign_side_cases.
  destruct (side_user_id response sd) as [id | e];
    [| exists []; cbn; rewrite app_nil_r; auto].
  destruct (is_None id) eqn:Hnone;
    [exists []; cbn; rewrite app_nil_r; auto |].
  destruct (users_contains users id) as [[|] | e] eqn:Hin;
    try (exists []; cbn; rewrite app_nil_r; auto; fail).
  destruct (EightUser_init dev id sd) as [user | e] eqn:Hinit;
    [| exists []; cbn; rewrite app_nil_r; auto].
  exists [(id, snd (update_user_profile user))]. cbn [snd fst].
  split; [reflexivity | split; [cbn; lia |]].
  constructor; [| constructor]. cbn [fst snd]. eauto.
Qed.

(** X15.  While the history is empty (as it is when [start] calls
    [assign_users]) nobody is ever registered: building the occupant
    reads [device_data] and raises [IndexError] before the dict is
    assigned, so a response that names a new left user ends the call
    with [IndexError] and [self.users] as it was. *)
Theorem assign_users_registers_nobody_before_first_snapshot
  (dev : EightSleep) (device_ids : list value) (response : value)
  (users : users_t) :
  _device_json_list dev = [] ->
  snd (assign_users update_user_profile dev device_ids response users) = users
  /\ (forall d id,
        device_ids <> [] ->
        getitem_str response "result" = Ok (VDict d) ->
        lookup "leftUserId" d = Some id ->
        is_None id = false ->
        users_contains users id = Ok false ->
        assign_users update_user_profile dev device_ids response users
        = (Raise IndexError, users)).
Proof.
  intros Hempty.
  assert (Hinit : forall id sd, EightUser_init dev id sd = Raise IndexError).
  { intros id sd. unfold EightUser_init, device_data. rewrite Hempty.
    reflexivity. }
  assert (Hside : forall us sd,
             snd (assign_side update_user_profile dev response us sd) = us).
  { intros us sd. rewrite assign_side_cases.
    destruct (side_user_id response sd) as [id | e]; [| reflexivity].
    destruct (is_None id); [reflexivity |].
    destruct (users_contains us id) as [[|] | e]; try reflexivity.
    rewrite Hinit. reflexivity. }
  split.
  - unfold assign_users.
    destruct (seq_getitem device_ids 0); [| reflexivity].
    unfold assign_users_sides. cbn [assign_sides].
    pose proof (Hside users "left") as HL.
    destruct (assign_side update_user_profile dev response users "left")
      as [[[] | e] users1]; cbn [snd] in HL; subst users1; [| reflexivity].
    pose proof (Hside users "right") as HR.
    destruct (assign_side update_user_profile dev response users "right")
      as [[[] | e] users2]; cbn [snd] in HR; subst users2; reflexivity.
  - intros d id Hids Hres Hleft Hnone Hnew.
    unfold assign_users.
    destruct device_ids as [| id0 ids]; [contradiction |].
    rewrite seq_getitem_head.
    unfold assign_users_sides. cbn [assign_sides].
    rewrite assign_side_cases. unfold side_user_id. rewrite Hres.
    cbn [bind dict_get]. change ("left" ++ "UserId")%string with "leftUserId".
    rewrite Hleft, Hnone, Hnew, Hinit. reflexivity.
Qed.

(** X16.  [assign_users] only appends: the occupants already registered
    stay as they are and in place, at most two are added, each under an
    id that is not [None] and was not a key before; and when the profile
    update leaves [side] alone, each new occupant sits on "left" or
    "right", never on ['Left'] or ['Right']. *)
Theorem assign_users_only_appends (dev : EightSleep)
  (device_ids : list value) (response : value) (users : users_t) :
  (forall user, side (snd (update_user_profile user)) = side user) ->
  exists new,
    snd (assign_users update_user_profile dev device_ids response users)
    = (users ++ new)%list
    /\ (List.length new <= 2)%nat
    /\ Forall (fun kv =>
                 is_None (fst kv) = false
                 /\ users_contains users (fst kv) = Ok false
                 /\ In (side (snd kv)) assign_users_sides) new.
Proof.
  intros Hkeep.
  assert (Hnew_side : forall sd kv,
             (exists user, EightUser_init dev (fst kv) sd = Ok user
                           /\ snd kv = snd (update_user_profile user)) ->
             side (snd kv) = sd).
  { intros sd kv (user & Hinit & ->). rewrite Hkeep.
    exact (EightUser_init_side _ _ _ _ Hinit). }
  unfold assign_users.
  destruct (seq_getitem device_ids 0);
    [| exists []; cbn; rewrite app_nil_r; auto].
  unfold assign_users_sides. cbn [assign_sides].
  destruct (assign_side_appends dev response users "left")
    as (new1 & H1 & Hlen1 & Hall1).
  destruct (assign_side update_user_profile dev response users "left")
    as [[[] | e] users1]; cbn [snd] in H1; subst users1.
  2:{ exists new1. split; [reflexivity | split; [lia |]].
      eapply Forall_impl; [| exact Hall1].
      intros kv (Hn & Hc & Hu). repeat split; auto.
      rewrite (Hnew_side "left" kv Hu). cbn. auto. }
  destruct (assign_side_appends dev response (users ++ new1)%list "right")
    as (new2 & H2 & Hlen2 & Hall2).
  assert (Hkeys : Forall (fun kv =>
                   is_None (fst kv) = false
                   /\ users_contains users (fst kv) = Ok false
                   /\ In (side (snd kv)) assign_users_sides) (new1 ++ new2)).
  { apply Forall_app. split.
    - eapply Forall_impl; [| exact Hall1].
      intros kv (Hn & Hc & Hu). repeat split; auto.
      rewrite (Hnew_side "left" kv Hu). cbn. auto.
    - eapply Forall_impl; [| exact Hall2].
      intros kv (Hn & Hc & Hu). repeat split; auto.
      + unfold users_contains in *.
        destruct (hashable (fst kv)); [| discriminate].
        injection Hc as Hc. rewrite existsb_app in Hc.
        apply orb_false_iff in Hc. now rewrite (proj1 Hc).
      + rewrite (Hnew_side "right" kv Hu). cbn. auto. }
  exists (new1 ++ new2)%list.
  destruct (assign_side update_user_profile dev response
              (users ++ new1)%list "right") as [[[] | e] users2];
    cbn [snd] in H2; subst users2;
    (split; [now rewrite app_assoc
            | split; [rewrite length_app; lia | exact Hkeys]]).
Qed.

Lemma key_eqb_refl (k : value) : hashable k = true -> key_eqb k k = true.
Proof.
  destruct k as [| [|] | q | s | l | d]; cbn; intros H;
    try reflexivity; try discriminate.
  - unfold Qc_eq_bool. destruct (Qc_eq_dec q q); congruence.
  - apply String.eqb_refl.
Qed.

Lemma users_contains_grows (users more : users_t) (k : value) :
  users_contains users k = Ok true ->
  users_contains (users ++ more)%list k = Ok true.
Proof.
  unfold users_contains. destruct (hashable k); [| discriminate].
  intros [= H]. now rewrite existsb_app, H.
Qed.

Lemma users_contains_appended (users : users_t) (k : value) (u : EightUser) :
  users_contains users k = Ok false ->
  users_contains (users ++ [(k, u)])%list k = Ok true.
Proof.
  unfold users_contains. destruct (hashable k) eqn:Hk; [| discriminate].
  intros _. rewrite existsb_app. cbn [existsb fst].
  now rewrite (key_eqb_refl k Hk), orb_true_r.
Qed.

Lemma assign_side_settles dev response users users' sd :
  assign_side update_user_profile dev response users sd = (Ok tt, users') ->
  exists id more,
    side_user_id response sd = Ok id
    /\ users' = (users ++ more)%list
    /\ (is_None id = true \/ users_contains users' id = Ok true).
Proof.
  rewrite assign_side_cases.
  destruct (side_user_id response sd) as [id | e]; [| discriminate].
  destruct (is_None id) eqn:Hnone.
  { intros [= <-]. exists id, []. rewrite app_nil_r. auto. }
  destruct (users_contains users id) as [[|] | e] eqn:Hin; try discriminate.
  { intros [= <-]. exists id, []. rewrite app_nil_r. auto. }
  destruct (EightUser_init dev id sd) as [user | e]; [| discriminate].
  intros [= _ <-]. exists id, [(id, snd (update_user_profile user))].
  split; [reflexivity | split; [reflexivity | right]].
  now apply users_contains_appended.
Qed.

End AssignUsersFacts.

Lemma assign_side_settled (profile : M unit) dev response users sd id :
  side_user_id response sd = Ok id ->
  is_None id = true \/ users_contains users id = Ok true ->
  assign_side profile dev response users sd = (Ok tt, users).
Proof.
  intros Hid Hdone. rewrite assign_side_cases, Hid.
  destruct (is_None id); [reflexivity |].
  destruct Hdone as [Hn | ->]; [discriminate | reflexivity].
Qed.

(** X17.  A second [assign_users] with the same response is a no-op:
    once a call has returned, every id the response names is [None] or
    already a key, so a repeated call registers nobody, returns, and
    does not run the profile update again (whatever that would do). *)
Theorem assign_users_repeat_is_noop (profile again : M unit)
  (dev : EightSleep) (device_ids : list value) (response : value)
  (users users' : users_t) :
  assign_users profile dev device_ids response users = (Ok tt, users') ->
  assign_users again dev device_ids response users' = (Ok tt, users').
Proof.
  unfold assign_users.
  destruct (seq_getitem device_ids 0); [| discriminate].
  unfold assign_users_sides. cbn [assign_sides].
  destruct (assign_side profile dev response users "left")
    as [[[] | e] users1] eqn:HL; [| discriminate].
  destruct (assign_side profile dev response users1 "right")
    as [[[] | e] users2] eqn:HR; [| discriminate].
  intros [= <-].
  destruct (assign_side_settles _ _ _ _ _ _ HL) as (idl & m1 & Hidl & -> & Hl).
  destruct (assign_side_settles _ _ _ _ _ _ HR) as (idr & m2 & Hidr & -> & Hr).
  rewrite (assign_side_settled again dev response _ "left" idl Hidl).
  - rewrite (assign_side_settled again dev response _ "right" idr Hidr Hr).
    reflexivity.
  - destruct Hl as [Hl | Hl]; [now left | right].
    now apply users_contains_grows.
Qed.


Lemma assign_users_registers_nobody_before_first_snapshot_witness :
  _device_json_list EightSleep_init = []
  /\ one_device <> []
  /\ getitem_str users_response "result"
     = Ok (VDict [("ownerId", VStr "alice"); ("leftUserId", VStr "alice");
                  ("rightUserId", VStr "bob")])
  /\ users_contains [] (VStr "alice") = Ok false
  /\ assign_users no_profile EightSleep_init one_device users_response []
     = (Raise IndexError, []).
Proof.
  assert (H1 : _device_json_list EightSleep_init = []) by reflexivity.
  assert (H2 : one_device <> []) by discriminate.
  assert (H3 : getitem_str users_response "result"
               = Ok (VDict [("ownerId", VStr "alice");
                            ("leftUserId", VStr "alice");
                            ("rightUserId", VStr "bob")])) by reflexivity.
  assert (H4 : users_contains [] (VStr "alice") = Ok false) by reflexivity.
  split; [exact H1 | split; [exact H2 | split; [exact H3 | split; [exact H4 |]]]].
  exact (proj2 (assign_users_registers_nobody_before_first_snapshot
                  no_profile EightSleep_init one_device users_response [] H1)
           _ (VStr "alice") H2 H3 eq_refl eq_refl H4).
Defined.

Lemma assign_users_only_appends_witness :
  (forall user, side (snd (no_profile user)) = side user)
  /\ exists new,
       snd (assign_users no_profile warm_device one_device users_response [])
       = ([] ++ new)%list
       /\ (List.length new <= 2)%nat
       /\ Forall (fun kv =>
                    is_None (fst kv) = false
                    /\ users_contains [] (fst kv) = Ok false
                    /\ In (side (snd kv)) assign_users_sides) new.
Proof.
  assert (H : forall user, side (snd (no_profile user)) = side user)
    by (intros user; reflexivity).
  split; [exact H |].
  exact (assign_users_only_appends
           no_profile warm_device one_device users_response [] H).
Defined.

Lemma assign_users_repeat_is_noop_witness :
  assign_users no_profile warm_device one_device users_response []
  = (Ok tt, constructed_pair)
  /\ assign_users no_profile warm_device one_device users_response
       constructed_pair
     = (Ok tt, constructed_pair).
Proof.
  assert (H : assign_users no_profile warm_device one_device users_response []
              = (Ok tt, constructed_pair)) by reflexivity.
  split; [exact H |].
  exact (assign_users_repeat_is_noop
           no_profile no_profile warm_device one_device users_response
           [] constructed_pair H).
Defined.


(** ** Polling and refreshing all occupants *)

Lemma presence_all_frame (dev : EightSleep) (users : users_t) :
  Forall2 presence_changed_only users (snd (presence_all dev users)).
Proof.
  induction users as [| [k u] rest IH]; [constructor |].
  cbn [presence_all].
  destruct (dynamic_presence dev u) as [r s] eqn:Hstep.
  destruct (dynamic_presence_outcome dev u s r Hstep) as [Hs _].
  destruct r as [[] | e].
  - destruct (presence_all dev rest) as [r' rest']. cbn [snd] in *.
    constructor; [split; [reflexivity | exact Hs] | exact IH].
  - cbn [snd]. constructor; [split; [reflexivity | exact Hs] |].
    clear. induction rest as [| kv rest IH]; constructor; [| exact IH].
    split; auto.
Qed.

(** X19.  A poll stores the snapshot before it touches any occupant:
    whatever the presence steps do (also when one raises),
    [device_data] afterwards is the new snapshot, every occupant keeps
    its id and its place, and nothing but [presence] has changed in
    it; a response without ["result"] changes nothing at all. *)
Theorem update_device_data_stores_snapshot_first (dev : EightSleep)
  (users : users_t) (device_resp : value) :
  match getitem_str device_resp "result" with
  | Raise e =>
      update_device_data dev users device_resp = (Raise e, (dev, users))
  | Ok snapshot =>
      fst (snd (update_device_data dev users device_resp))
      = handle_device_json dev snapshot
      /\ device_data (fst (snd (update_device_data dev users device_resp)))
         = Ok snapshot
      /\ Forall2 presence_changed_only users
           (snd (snd (update_device_data dev users device_resp)))
  end.
Proof.
  unfold update_device_data.
  destruct (getitem_str device_resp "result") as [snapshot | e];
    [| reflexivity].
  pose proof (presence_all_frame (handle_device_json dev snapshot) users) as Hf.
  destruct (presence_all (handle_device_json dev snapshot) users) as [r users'].
  cbn [fst snd] in *.
  split; [reflexivity | split; [apply device_data_newest | exact Hf]].
Qed.

Lemma dynamic_presence_unbound_off_side (dev : EightSleep) (u : EightUser) :
  In (side u) assign_users_sides ->
  dynamic_presence dev u = (Raise UnboundLocalError, u).
Proof.
  intros Hside.
  destruct (assign_users_sides_not_capitalised _ Hside) as [HL HR].
  destruct (accessors_unbound_off_side dev u HL HR) as (_ & _ & Hn & _).
  presence_unfold. rewrite Hn. reflexivity.
Qed.

Lemma update_user_unbound_off_side (dev : EightSleep) (response : value)
  (u : EightUser) :
  In (side u) assign_users_sides ->
  update_user dev response u = (Raise UnboundLocalError, u).
Proof.
  intros Hside.
  destruct (assign_users_sides_not_capitalised _ Hside) as [HL HR].
  destruct (accessors_unbound_off_side dev u HL HR) as (Hl & _).
  unfold update_user, mbind, prop. rewrite Hl. reflexivity.
Qed.

(** X20.  With an occupant on "left" or "right" first in [self.users]
    (the sides [assign_users] passes), every poll stores its snapshot
    and then raises [UnboundLocalError] in the first presence step, and
    every [update_user_data] raises it before any intervals are
    fetched: no occupant is ever changed by either. *)
Theorem polls_and_refreshes_raise_for_assign_users_occupants
  (dev : EightSleep) (k : value) (u : EightUser) (rest : users_t) :
  In (side u) assign_users_sides ->
  (forall device_resp snapshot,
      getitem_str device_resp "result" = Ok snapshot ->
      update_device_data dev ((k, u) :: rest) device_resp
      = (Raise UnboundLocalError,
         (handle_device_json dev snapshot, (k, u) :: rest)))
  /\ (forall api_get,
        update_user_data dev api_get ((k, u) :: rest)
        = (Raise UnboundLocalError, (k, u) :: rest)).
Proof.
  intros Hside. split.
  - intros device_resp snapshot Hres. unfold update_device_data.
    rewrite Hres. cbn [presence_all].
    rewrite (dynamic_presence_unbound_off_side _ u Hside). reflexivity.
  - intros api_get. cbn [update_user_data].
    rewrite (update_user_unbound_off_side dev _ u Hside). reflexivity.
Qed.

Lemma polls_and_refreshes_raise_for_assign_users_occupants_witness :
  In "left" assign_users_sides
  /\ getitem_str poll_response "result" = Ok (poll_snapshot 11)
  /\ update_device_data warm_device constructed_pair poll_response
     = (Raise UnboundLocalError,
        (handle_device_json warm_device (poll_snapshot 11), constructed_pair))
  /\ update_user_data warm_device (fun _ => intervals_response) constructed_pair
     = (Raise UnboundLocalError, constructed_pair).
Proof.
  assert (H1 : In "left" assign_users_sides) by (cbn; auto).
  assert (H2 : getitem_str poll_response "result" = Ok (poll_snapshot 11))
    by reflexivity.
  destruct (polls_and_refreshes_raise_for_assign_users_occupants
              warm_device (VStr "alice")
              {| userid := VStr "alice"; side := "left"; trends := VNone;
                 intervals := VNone; data := warm_snapshot;
                 past_heating_level := VNone; presence := false |}
              [(VStr "bob",
                {| userid := VStr "bob"; side := "right"; trends := VNone;
                   intervals := VNone; data := warm_snapshot;
                   past_heating_level := VNone; presence := false |})]
              H1) as [Hpoll Hrefresh].
  split; [exact H1 | split; [exact H2 | split]].
  - exact (Hpoll poll_response (poll_snapshot 11) H2).
  - exact (Hrefresh (fun _ => intervals_response)).
Defined.



(** ** Room temperature and the heating request *)

Lemma current_values_has_no_processing strptime utc_offset u cv :
  current_values strptime utc_offset u = Ok cv ->
  find (fun kv => String.eqb (fst kv) "processing") cv = None.
Proof.
  unfold current_values.
  repeat match goal with
         | |- context [bind ?r _] =>
             destruct r; cbn [bind]; [| discriminate]
         end.
  intros [= <-]. reflexivity.
Qed.

(** X22.  [room_temperature] is [None] while no occupant is registered;
    with any occupant it never returns: [current_values] has no
    ["processing"] entry, so the lookup raises [KeyError] for the first
    occupant (or whatever that occupant's [current_values] raises). *)
Theorem room_temperature_needs_no_occupants (strptime : value -> result Z)
  (utc_offset : Z) :
  room_temperature strptime utc_offset [] = Ok (Json VNone)
  /\ (forall k u rest,
        room_temperature strptime utc_offset ((k, u) :: rest)
        = match current_values strptime utc_offset u with
          | Ok _ => Raise KeyError
          | Raise e => Raise e
          end).
Proof.
  split; [reflexivity |].
  intros k u rest. unfold room_temperature. cbn [for_each].
  unfold room_temperature_step at 1. cbn [snd]. unfold current_value at 1.
  destruct (current_values strptime utc_offset u) as [cv | e] eqn:Hcv;
    [| reflexivity].
  cbn [bind]. rewrite (current_values_has_no_processing _ _ _ _ Hcv).
  reflexivity.
Qed.



(** ** A poll, end to end *)



